(** * The TTL-cached time-bucket aggregation of [backend/kusto.py]

    A shallow embedding of [KustoHandler] (cache freshness, refresh, date-range
    filter, per-bucket counting, cache status) together with the parts of
    Python's [datetime] module the handler calls, and the properties of the
    specification that concern them; then the analytics endpoints of
    [backend/apis/events.py] that serve the handler, and further properties
    of both. *)

From stdpp Require Import base option list gmap strings fin_maps pretty.
From Stdlib Require Import ZArith Lia Ascii QArith.QArith_base.

Local Open Scope string_scope.
Local Open Scope list_scope.
Local Open Scope Z_scope.

(** ** Python's [datetime] *)

(** A naive [datetime.datetime]: the seven fields of the object. *)
Record datetime : Type := mk_datetime {
  year : Z; month : Z; day : Z;
  hour : Z; minute : Z; second : Z; microsecond : Z
}.

Global Instance datetime_eq_dec : EqDecision datetime.
Proof. solve_decision. Defined.

Module Calendar.

(** [_DAYS_IN_MONTH], indexed from 1; the entry at 0 is the placeholder -1. *)
Definition _DAYS_IN_MONTH (m : Z) : Z :=
  match m with
  | 1 => 31 | 2 => 28 | 3 => 31 | 4 => 30 | 5 => 31 | 6 => 30
  | 7 => 31 | 8 => 31 | 9 => 30 | 10 => 31 | 11 => 30 | 12 => 31
  | _ => -1
  end.

(** [_DAYS_BEFORE_MONTH]: days of a common year before the first of month [m]. *)
Definition _DAYS_BEFORE_MONTH (m : Z) : Z :=
  match m with
  | 1 => 0 | 2 => 31 | 3 => 59 | 4 => 90 | 5 => 120 | 6 => 151
  | 7 => 181 | 8 => 212 | 9 => 243 | 10 => 273 | 11 => 304 | 12 => 334
  | _ => -1
  end.

Definition _is_leap (y : Z) : bool :=
  (y mod 4 =? 0) && (negb (y mod 100 =? 0) || (y mod 400 =? 0)).

Definition _days_before_year (y : Z) : Z :=
  let y := y - 1 in y * 365 + y / 4 - y / 100 + y / 400.

Definition _days_in_month (y m : Z) : Z :=
  if (m =? 2) && _is_leap y then 29 else _DAYS_IN_MONTH m.

Definition _days_before_month (y m : Z) : Z :=
  _DAYS_BEFORE_MONTH m + (if (2 <? m) && _is_leap y then 1 else 0).

Definition _ymd2ord (y m d : Z) : Z :=
  _days_before_year y + _days_before_month y m + d.

Definition _DI400Y : Z := Eval cbv in _days_before_year 401.
Definition _DI100Y : Z := Eval cbv in _days_before_year 101.
Definition _DI4Y : Z := Eval cbv in _days_before_year 5.
Definition _MAXORDINAL : Z := 3652059.

(** [_ord2ymd]: the date of proleptic Gregorian ordinal [n] (1 is 0001-01-01). *)
Definition _ord2ymd (n : Z) : Z * Z * Z :=
  let n := n - 1 in
  let n400 := n / _DI400Y in
  let n := n mod _DI400Y in
  let year := n400 * 400 + 1 in
  let n100 := n / _DI100Y in
  let n := n mod _DI100Y in
  let n4 := n / _DI4Y in
  let n := n mod _DI4Y in
  let n1 := n / 365 in
  let n := n mod 365 in
  let year := year + (n100 * 100 + n4 * 4 + n1) in
  if (n1 =? 4) || (n100 =? 4) then (year - 1, 12, 31)
  else
    let leapyear := (n1 =? 3) && (negb (n4 =? 24) || (n100 =? 3)) in
    let month := Z.shiftr (n + 50) 5 in
    let preceding :=
      _DAYS_BEFORE_MONTH month + (if (2 <? month) && leapyear then 1 else 0) in
    if n <? preceding then
      let month := month - 1 in
      let preceding :=
        preceding
        - (_DAYS_IN_MONTH month + (if (month =? 2) && leapyear then 1 else 0)) in
      (year, month, n - preceding + 1)
    else (year, month, n - preceding + 1).

(** The checks of the [datetime] constructor: every object that exists
    satisfies them. *)
Definition valid_date (y m d : Z) : bool :=
  (1 <=? y) && (y <=? 9999) && (1 <=? m) && (m <=? 12)
  && (1 <=? d) && (d <=? _days_in_month y m).

Definition valid_time (h mi s us : Z) : bool :=
  (0 <=? h) && (h <=? 23) && (0 <=? mi) && (mi <=? 59)
  && (0 <=? s) && (s <=? 59) && (0 <=? us) && (us <=? 999999).

End Calendar.
Import Calendar.

Definition valid_datetime (t : datetime) : bool :=
  valid_date (year t) (month t) (day t)
  && valid_time (hour t) (minute t) (second t) (microsecond t).

(** [datetime.toordinal] and [datetime.weekday] (Monday is 0). *)
Definition toordinal (t : datetime) : Z := _ymd2ord (year t) (month t) (day t).
Definition weekday (t : datetime) : Z := (toordinal t + 6) mod 7.

(** Tuple comparison of the seven fields, as [datetime._cmp] does. *)
Definition datetime_cmp (a b : datetime) : comparison :=
  match year a ?= year b with
  | Eq =>
    match month a ?= month b with
    | Eq =>
      match day a ?= day b with
      | Eq =>
        match hour a ?= hour b with
        | Eq =>
          match minute a ?= minute b with
          | Eq =>
            match second a ?= second b with
            | Eq => microsecond a ?= microsecond b
            | c => c
            end
          | c => c
          end
        | c => c
        end
      | c => c
      end
    | c => c
    end
  | c => c
  end.

Definition datetime_le (a b : datetime) : bool :=
  match datetime_cmp a b with Gt => false | _ => true end.

(** [t.replace(hour=h, minute=mi, second=s)]: the other fields, the
    microsecond among them, are kept. *)
Definition replace_hms (t : datetime) (h mi s : Z) : datetime :=
  mk_datetime (year t) (month t) (day t) h mi s (microsecond t).

(** A [timedelta] is determined by the microseconds it spans; the model keeps
    that number in place of the normalised (days, seconds, microseconds). *)
Definition timedelta : Type := Z.

(** [a - b] on two datetimes ([datetime.__sub__]). *)
Definition datetime_sub (a b : datetime) : timedelta :=
  let secs (t : datetime) := second t + minute t * 60 + hour t * 3600 in
  ((toordinal a - toordinal b) * 86400 + (secs a - secs b)) * 1000000
  + (microsecond a - microsecond b).

(** [td.total_seconds() < secs] for an integer [secs]. [total_seconds] is the
    float nearest to [td / 10**6]; rounding to nearest is monotone and an
    integer below 2**53 is a float, so the float comparison agrees with this
    exact one. *)
Definition total_seconds_lt (td : timedelta) (secs : Z) : bool :=
  td <? secs * 1000000.

(** ** Exceptions *)

Inductive exception : Type :=
| KeyError (key : string)
| IndexError
| TypeError
| AttributeError
| ValueError (msg : string)
| OverflowError
| RecursionError.

Global Instance exception_eq_dec : EqDecision exception.
Proof. solve_decision. Defined.

Inductive result (A : Type) : Type :=
| Ok (a : A)
| Raise (e : exception).
Arguments Ok {A} a.
Arguments Raise {A} e.

Global Instance result_eq_dec {A : Type} `{EqDecision A} : EqDecision (result A).
Proof. solve_decision. Defined.

Global Instance result_ret : MRet result := λ A a, Ok a.
Global Instance result_bind : MBind result := λ A B f r,
  match r with Ok a => f a | Raise e => Raise e end.

(** [t - timedelta(days=k)] ([datetime.__add__] with the negated delta): the
    date moves by ordinals, the time of day stays. *)
Definition datetime_sub_days (t : datetime) (k : Z) : result datetime :=
  let days := toordinal t - k in
  if (0 <? days) && (days <=? _MAXORDINAL) then
    let '(y, m, d) := _ord2ymd days in
    Ok (mk_datetime y m d (hour t) (minute t) (second t) (microsecond t))
  else Raise OverflowError.

(** ** Formatting and parsing *)

Definition digit (n : Z) : ascii := ascii_of_N (48 + Z.to_N (n mod 10)).

(** [n] in [k] decimal digits, zero filled: C's [%0kd] for the fields of a
    datetime, which have at most [k] digits. *)
Fixpoint zfill (k : nat) (n : Z) : string :=
  match k with
  | O => ""
  | S k' => zfill k' (n / 10) +:+ String (digit n) ""
  end.

(** [t.strftime(fmt)] for the directives the handler uses. The year is
    written in four digits, as the library documents [%Y]: that is what
    every C library writes from year 1000 on. For an earlier year the C
    library decides whether the digits are zero filled (glibc writes [998]),
    so what is stated of the digits of a year needs the year to be 1000 at
    least. *)
Fixpoint strftime (t : datetime) (fmt : string) : string :=
  match fmt with
  | "" => ""
  | String "%" (String c rest) =>
    (if decide (c = "Y"%char) then zfill 4 (year t)
     else if decide (c = "m"%char) then zfill 2 (month t)
     else if decide (c = "d"%char) then zfill 2 (day t)
     else if decide (c = "H"%char) then zfill 2 (hour t)
     else if decide (c = "M"%char) then zfill 2 (minute t)
     else if decide (c = "S"%char) then zfill 2 (second t)
     else String "%" (String c ""))
    +:+ strftime t rest
  | String c rest => String c (strftime t rest)
  end.

(** [str(n)] for an integer. *)
Definition str_of_int (n : Z) : string := pretty n.

Definition hex_digit (n : N) : ascii :=
  ascii_of_N (if (n <? 10)%N then 48 + n else 87 + n).

Fixpoint contains (c : ascii) (s : string) : bool :=
  match s with
  | "" => false
  | String c' s' => bool_decide (c = c') || contains c s'
  end.

(** One character of [repr(s)]: the quote in use and the backslash are
    escaped, tab, newline and carriage return have their letter, the other
    control characters are written in hexadecimal. *)
Definition repr_char (quote c : ascii) : string :=
  let n := N_of_ascii c in
  if bool_decide (c = quote) || (n =? 92)%N then String "\" (String c "")
  else if (n =? 9)%N then "\t"
  else if (n =? 10)%N then "\n"
  else if (n =? 13)%N then "\r"
  else if (n <? 32)%N || (n =? 127)%N then
    String "\" (String "x" (String (hex_digit (n / 16)) (String (hex_digit (n mod 16)) "")))
  else String c "".

Fixpoint repr_chars (quote : ascii) (s : string) : string :=
  match s with
  | "" => ""
  | String c s' => repr_char quote c +:+ repr_chars quote s'
  end.

(** [repr(s)] for a string of ASCII characters: between single quotes, or
    between double quotes when the string has a single quote and no double
    quote (character 34). Characters outside ASCII are copied, which is
    right for the printable ones. *)
Definition repr (s : string) : string :=
  let quote : ascii :=
    if contains "'"%char s && negb (contains (ascii_of_N 34) s) then ascii_of_N 34
    else "'"%char in
  String quote (repr_chars quote s) +:+ String quote "".

Definition digit_val (c : ascii) : option Z :=
  let n := Z.of_N (N_of_ascii c) in
  if (48 <=? n) && (n <=? 57) then Some (n - 48) else None.

Fixpoint parse_digits (k : nat) (acc : Z) (s : string) : option (Z * string) :=
  match k with
  | O => Some (acc, s)
  | S k' =>
    match s with
    | String c s' => d ← digit_val c; parse_digits k' (acc * 10 + d) s'
    | "" => None
    end
  end.

Definition expect (c : ascii) (s : string) : option string :=
  match s with
  | String c' s' => if decide (c = c') then Some s' else None
  | "" => None
  end.

(** [YYYY-MM-DD], and what follows it. *)
Definition _parse_isoformat_date (s : string) : option (Z * Z * Z * string) :=
  '(y, s) ← parse_digits 4 0 s;
  s ← expect "-" s;
  '(m, s) ← parse_digits 2 0 s;
  s ← expect "-" s;
  '(d, s) ← parse_digits 2 0 s;
  Some (y, m, d, s).

(** [HH], [HH:MM] or [HH:MM:SS]. *)
Definition _parse_hh_mm_ss (s : string) : option (Z * Z * Z) :=
  '(h, s) ← parse_digits 2 0 s;
  if decide (s = "") then Some (h, 0, 0) else
  s ← expect ":" s;
  '(mi, s) ← parse_digits 2 0 s;
  if decide (s = "") then Some (h, mi, 0) else
  s ← expect ":" s;
  '(sec, s) ← parse_digits 2 0 s;
  if decide (s = "") then Some (h, mi, sec) else None.

(** The field checks of the [datetime] constructor, in its order. *)
Definition new_datetime (y m d h mi s us : Z) : result datetime :=
  if negb ((1 <=? y) && (y <=? 9999)) then
    Raise (ValueError ("year " +:+ str_of_int y +:+ " is out of range"))
  else if negb ((1 <=? m) && (m <=? 12)) then
    Raise (ValueError "month must be in 1..12")
  else if negb ((1 <=? d) && (d <=? _days_in_month y m)) then
    Raise (ValueError "day is out of range for month")
  else if negb ((0 <=? h) && (h <=? 23)) then
    Raise (ValueError "hour must be in 0..23")
  else if negb ((0 <=? mi) && (mi <=? 59)) then
    Raise (ValueError "minute must be in 0..59")
  else if negb ((0 <=? s) && (s <=? 59)) then
    Raise (ValueError "second must be in 0..59")
  else if negb ((0 <=? us) && (us <=? 999999)) then
    Raise (ValueError "microsecond must be in 0..999999")
  else Ok (mk_datetime y m d h mi s us).

(** [datetime.fromisoformat] on the naive forms [YYYY-MM-DD] and
    [YYYY-MM-DD*HH[:MM[:SS]]] ([*] is any one character). The library also
    reads fractional seconds, UTC offsets and, in recent versions, further
    ISO 8601 forms; the model rejects those strings. So a datetime the model
    returns is the one the library returns, and an exception of the model is
    the one of the library on the strings that do not start with the four
    digits of a year and on the strings of the shape [dddd-dd-dd]; on other
    strings the library may accept what the model rejects. *)
Definition fromisoformat (date_string : string) : result datetime :=
  let invalid : result datetime :=
    Raise (ValueError ("Invalid isoformat string: " +:+ repr date_string)) in
  match _parse_isoformat_date date_string with
  | None => invalid
  | Some (y, m, d, "") => new_datetime y m d 0 0 0 0
  | Some (y, m, d, String _ tstr) =>
    match _parse_hh_mm_ss tstr with
    | None => invalid
    | Some (h, mi, s) => new_datetime y m d h mi s 0
    end
  end.

(** ** Values, datasets and dictionaries *)

(** The objects a column holds: the categorical strings and the datetimes of
    [bar_test_data], the integers of [test_data]. Equality of these as
    dictionary keys is structural. *)
Inductive pyobj : Type :=
| VStr (s : string)
| VInt (n : Z)
| VDatetime (t : datetime).

Global Instance pyobj_eq_dec : EqDecision pyobj.
Proof. solve_decision. Defined.

(** A columnar dataset: the dict from column name to the list of its values. *)
Abbreviation dataset := (gmap string (list pyobj)).

(** [d[k]] on a dataset and [l[i]] on a list, for an index counted from 0. *)
Definition getitem (k : string) (d : dataset) : result (list pyobj) :=
  match d !! k with Some col => Ok col | None => Raise (KeyError k) end.

Definition index {A : Type} (l : list A) (i : nat) : result A :=
  match l !! i with Some x => Ok x | None => Raise IndexError end.

(** Truth value of [str | None] and of [dict | None]. *)
Definition truthy_str (s : option string) : bool :=
  match s with Some s => negb (bool_decide (s = "")) | None => false end.

Definition truthy_dict (d : option dataset) : bool :=
  match d with Some d => negb (bool_decide (d = ∅)) | None => false end.

(** A Python dict whose iteration order matters: the items in insertion
    order. Assigning to a key that is present keeps its place. *)
Section PyDict.
Context {K V : Type} `{EqDecision K}.

Fixpoint dict_get (k : K) (d : list (K * V)) : option V :=
  match d with
  | [] => None
  | (k', v) :: d' => if decide (k = k') then Some v else dict_get k d'
  end.

Fixpoint dict_set (k : K) (v : V) (d : list (K * V)) : list (K * V) :=
  match d with
  | [] => [(k, v)]
  | (k', v') :: d' =>
    if decide (k = k') then (k, v) :: d' else (k', v') :: dict_set k v d'
  end.
End PyDict.

(** One element of the result of [get_bar_data]:
    [{"date": ..., "value": ..., "count": ...}]. *)
Record bar_record : Type := mk_bar_record {
  date : string; value : pyobj; count : Z
}.

Global Instance bar_record_eq_dec : EqDecision bar_record.
Proof. solve_decision. Defined.

(** ** Bucket keys (the five branches of [get_bar_data]) *)

(** A method of [datetime] called on a column value: an object of another
    type has no such attribute. *)
Definition as_datetime (ts : pyobj) : result datetime :=
  match ts with VDatetime t => Ok t | _ => Raise AttributeError end.

Definition hour_key (ts : pyobj) : result string :=
  t ← as_datetime ts; Ok (strftime t "%Y-%m-%d %H:00").

Definition day_key (ts : pyobj) : result string :=
  t ← as_datetime ts; Ok (strftime t "%Y-%m-%d").

Definition week_key (ts : pyobj) : result string :=
  t ← as_datetime ts;
  week_start ← datetime_sub_days t (weekday t);
  Ok (strftime week_start "%Y-%m-%d").

Definition month_key (ts : pyobj) : result string :=
  t ← as_datetime ts; Ok (strftime t "%Y-%m").

Definition quarter_key (ts : pyobj) : result string :=
  t ← as_datetime ts;
  let quarter := (month t - 1) / 3 + 1 in
  Ok (str_of_int (year t) +:+ "-Q" +:+ str_of_int quarter).

(** The [if/elif] chain on [bin_size]; [None] is the final [else]. *)
Definition bucket_key (bin_size : string) : option (pyobj → result string) :=
  if String.eqb bin_size "1H" then Some hour_key
  else if String.eqb bin_size "1D" then Some day_key
  else if String.eqb bin_size "1W" then Some week_key
  else if String.eqb bin_size "1M" then Some month_key
  else if String.eqb bin_size "3M" then Some quarter_key
  else None.

(** ** Grouping and counting *)

Abbreviation bins_t := (list (string * list (pyobj * Z))).

Section Counting.
Variable key_of : pyobj → result string.
Variable filtered_data : dataset.
Variable feature : string.

(** The body of the loop [for i, ts in enumerate(filtered_data["timestamp"])]. *)
Definition count_row (bins : bins_t) (i : nat) (ts : pyobj) : result bins_t :=
  key ← key_of ts;
  let bins := if dict_get key bins is None then dict_set key [] bins else bins in
  col ← getitem feature filtered_data;
  v ← index col i;
  let counts := default [] (dict_get key bins) in
  Ok (dict_set key (dict_set v (default 0 (dict_get v counts) + 1) counts) bins).

Fixpoint count_rows (bins : bins_t) (i : nat) (rows : list pyobj) : result bins_t :=
  match rows with
  | [] => Ok bins
  | ts :: rows' => bins' ← count_row bins i ts; count_rows bins' (S i) rows'
  end.

(** The two nested loops that build [result]. *)
Definition emit (bins : bins_t) : list bar_record :=
  flat_map (λ '(key, counts),
    map (λ '(v, c), mk_bar_record key v c) counts) bins.

(** One branch of [get_bar_data]: group, count, emit. *)
Definition count_by : result (list bar_record) :=
  rows ← getitem "timestamp" filtered_data;
  bins ← count_rows [] 0%nat rows;
  Ok (emit bins).
End Counting.

(** ** The date-range filter (the body of [if start_date and end_date and
    self.bar_data]) *)

(** [start_dt <= ts <= end_dt]: comparing a datetime with another type
    raises. *)
Definition in_window (start_dt end_dt : datetime) (ts : pyobj) : result bool :=
  match ts with
  | VDatetime t => Ok (datetime_le start_dt t && datetime_le t end_dt)
  | _ => Raise TypeError
  end.

Fixpoint filter_indices (start_dt end_dt : datetime) (i : nat) (rows : list pyobj)
  : result (list nat) :=
  match rows with
  | [] => Ok []
  | ts :: rows' =>
    keep ← in_window start_dt end_dt ts;
    rest ← filter_indices start_dt end_dt (S i) rows';
    Ok (if keep : bool then i :: rest else rest)
  end.

(** [[bar_data[column][i] for i in indices]]: the column is looked up once
    per index, so not at all when there is none. *)
Fixpoint pick (bar_data : dataset) (column : string) (indices : list nat)
  : result (list pyobj) :=
  match indices with
  | [] => Ok []
  | i :: indices' =>
    col ← getitem column bar_data;
    x ← index col i;
    rest ← pick bar_data column indices';
    Ok (x :: rest)
  end.

Definition range_filter (bar_data : dataset) (feature start_date end_date : string)
    (filtered_data : dataset) : result dataset :=
  start_dt ← fromisoformat start_date;
  end_dt ← fromisoformat end_date;
  let end_dt := replace_hms end_dt 23 59 59 in
  rows ← getitem "timestamp" bar_data;
  filtered_indices ← filter_indices start_dt end_dt 0%nat rows;
  timestamps ← pick bar_data "timestamp" filtered_indices;
  let filtered_data := <["timestamp" := timestamps]> filtered_data in
  values ← pick bar_data feature filtered_indices;
  Ok (<[feature := values]> filtered_data).

(** ** The handler and the world it runs in *)

(** The attributes of a [KustoHandler]; [None] is Python's [None]. *)
Record KustoHandler : Type := mk_handler {
  data : option dataset;
  bar_data : option dataset;
  last_load_time : option datetime;
  bar_last_load_time : option datetime;
  cache_duration : Z
}.

(** [KustoHandler.__init__]. *)
Definition __init__ : KustoHandler := mk_handler None None None None 600.

(** What a method can read or change besides its arguments: the handler, the
    system clock ([clock k] is what the [k]-th call of [datetime.now()]
    returns), the lines printed so far, and a ghost counter of the refreshes
    taken from the data source. *)
Record world : Type := mk_world {
  self : KustoHandler;
  clock : nat → datetime;
  ticks : nat;
  stdout : list string;
  refreshes : nat
}.

(** A method body: it ends in a value or an exception, and the changes made
    before an exception stay. *)
Definition M (A : Type) : Type := world → result A * world.

Global Instance M_ret : MRet M := λ A a w, (Ok a, w).
Global Instance M_bind : MBind M := λ A B f m w,
  match m w with
  | (Ok a, w') => f a w'
  | (Raise e, w') => (Raise e, w')
  end.

Definition raise {A : Type} (e : exception) : M A := λ w, (Raise e, w).

Definition lift {A : Type} (r : result A) : M A := λ w, (r, w).

Definition get_self : M KustoHandler := λ w, (Ok (self w), w).

Definition put_self (h : KustoHandler) : M unit := λ w,
  (Ok tt, mk_world h (clock w) (ticks w) (stdout w) (refreshes w)).

(** [datetime.datetime.now()]. *)
Definition now : M datetime := λ w,
  (Ok (clock w (ticks w)),
   mk_world (self w) (clock w) (S (ticks w)) (stdout w) (refreshes w)).

Definition print (line : string) : M unit := λ w,
  (Ok tt, mk_world (self w) (clock w) (ticks w) (stdout w ++ [line]) (refreshes w)).

Definition count_refresh : M unit := λ w,
  (Ok tt, mk_world (self w) (clock w) (ticks w) (stdout w) (S (refreshes w))).

Section Handler.
(** The module-level datasets the cache is refreshed from. *)
Variable test_data : dataset.
Variable bar_test_data : dataset.

Definition _is_cache_valid (last_load_time : option datetime) : M bool :=
  match last_load_time with
  | None => mret false
  | Some t =>
    n ← now;
    h ← get_self;
    mret (total_seconds_lt (datetime_sub n t) (cache_duration h))
  end.

Definition _update_cache (data_type : string) : M unit :=
  if String.eqb data_type "line" then
    count_refresh;;
    h ← get_self;
    n ← now;
    put_self (mk_handler (Some test_data) (bar_data h) (Some n)
                         (bar_last_load_time h) (cache_duration h))
  else if String.eqb data_type "bar" then
    count_refresh;;
    h ← get_self;
    n ← now;
    put_self (mk_handler (data h) (Some bar_test_data) (last_load_time h)
                         (Some n) (cache_duration h))
  else mret tt.

Definition get_data (query : string) : M (option dataset) :=
  h ← get_self;
  valid ← _is_cache_valid (last_load_time h);
  if valid : bool then
    match last_load_time h with
    | Some t =>
      print ("Using cached line data (loaded " +:+ strftime t "%H:%M:%S" +:+ ")")
    | None => mret tt
    end;;
    mret (data h)
  else
    n ← now;
    print ("Loading fresh line data at " +:+ strftime n "%H:%M:%S");;
    _update_cache "line";;
    h ← get_self;
    mret (data h).

Definition get_data_from_table (table : string) (filters : gmap string string)
  : M (option dataset) :=
  get_data "table_query".

(** Lines 87 to 101 of [get_bar_data]: the snapshot to work on, refreshed
    when the cache is stale or empty. [dict.copy()] yields an equal dict. *)
Definition bar_snapshot : M dataset :=
  h ← get_self;
  valid ← _is_cache_valid (bar_last_load_time h);
  if valid && truthy_dict (bar_data h) then
    match bar_last_load_time h with
    | Some t =>
      print ("Using cached bar data (loaded " +:+ strftime t "%H:%M:%S" +:+ ")")
    | None => mret tt
    end;;
    mret (default ∅ (bar_data h))
  else
    n ← now;
    print ("Loading fresh bar data at " +:+ strftime n "%H:%M:%S");;
    _update_cache "bar";;
    h ← get_self;
    if truthy_dict (bar_data h) then mret (default ∅ (bar_data h))
    else mret bar_test_data.

(** Lines 103 to 115: the filter runs only when both dates and the cached
    dataset are truthy. *)
Definition bar_filtered (feature : string) (start_date end_date : option string)
    (filtered_data : dataset) : M dataset :=
  h ← get_self;
  if truthy_str start_date && truthy_str end_date && truthy_dict (bar_data h) then
    lift (range_filter (default ∅ (bar_data h)) feature
            (default "" start_date) (default "" end_date) filtered_data)
  else mret filtered_data.

(** [get_bar_data]; [depth] is the number of frames the interpreter still
    grants, and the call in the last [else] uses one. *)
Fixpoint get_bar_data (depth : nat) (feature : string)
    (start_date end_date : option string) (bin_size : string)
  : M (list bar_record) :=
  match depth with
  | O => raise RecursionError
  | S depth' =>
    filtered_data ← bar_snapshot;
    filtered_data ← bar_filtered feature start_date end_date filtered_data;
    match bucket_key bin_size with
    | Some key_of => lift (count_by key_of filtered_data feature)
    | None => get_bar_data depth' feature start_date end_date "1D"
    end
  end.

Definition clear_cache : M unit :=
  h ← get_self;
  put_self (mk_handler None None None None (cache_duration h));;
  print "Cache cleared".

(** One entry of the dict [get_cache_status] returns. [age_minutes] is the
    exact age in minutes; the source rounds it to one decimal in floating
    point, which is not modelled. *)
Record slot_status : Type := mk_slot_status {
  valid : bool;
  last_load : option string;
  age_minutes : option Q
}.

Record cache_status : Type := mk_cache_status {
  line_cache : slot_status;
  bar_cache : slot_status;
  cache_duration_minutes : Q
}.

Definition slot_report (is_valid : bool) (last_load_time : option datetime)
  : M slot_status :=
  match last_load_time with
  | Some t =>
    let last := strftime t "%Y-%m-%d %H:%M:%S" in
    n ← now;
    mret (mk_slot_status is_valid (Some last)
            (Some (Qmake (datetime_sub n t) 60000000)))
  | None => mret (mk_slot_status is_valid None None)
  end.

Definition get_cache_status : M cache_status :=
  h ← get_self;
  line_cache_valid ← _is_cache_valid (last_load_time h);
  h ← get_self;
  bar_cache_valid ← _is_cache_valid (bar_last_load_time h);
  h ← get_self;
  line ← slot_report line_cache_valid (last_load_time h);
  bar ← slot_report bar_cache_valid (bar_last_load_time h);
  mret (mk_cache_status line bar (Qmake (cache_duration h) 60)).

End Handler.

(** [get_available_features]; [bar_test_keys] is [bar_test_data.keys()], the
    keys of the module-level dict in insertion order. *)
Definition get_available_features (bar_test_keys : list string) : list string :=
  filter (λ key, key ≠ "timestamp") bar_test_keys.

(** ** The analytics endpoints ([apis/events.py])

    The endpoints that serve the handler. An endpoint ends in a response
    body or in the [HTTPException] it raises; [kusto_handler] is the one
    handler of the module, so the endpoints run in its world. A response
    that is a dict with one key is modelled by the value of that key. The
    endpoint of the line chart rewrites a column of the shared dataset in
    place and is not modelled. Inside a definition the name of a handler
    method still refers to the method. *)
Module events.

Inductive http (A : Type) : Type :=
| Response (body : A)
| HTTPException (status_code : Z) (detail : string).
Arguments Response {A} body.
Arguments HTTPException {A} status_code detail.

(** [try: body / except Exception as e: handler(e)]: every exception of the
    model is an [Exception]. *)
Definition try_except {A : Type} (body : M A) (handler : exception → M A) : M A :=
  λ w, match body w with
       | (Ok a, w') => (Ok a, w')
       | (Raise e, w') => handler e w'
       end.

Record bar_data_response : Type := mk_bar_data_response {
  data : list bar_record;
  feature : string;
  bin_size : string
}.

Section Endpoints.
Variable test_data : dataset.
Variable bar_test_data : dataset.
(** [bar_test_data.keys()]. *)
Variable bar_test_keys : list string.
(** The frames left when an endpoint calls the handler. *)
Variable depth : nat.
(** [str(e)]. *)
Variable str : exception → string.

Definition get_bar_features : M (http (list string)) :=
  try_except
    (let features := get_available_features bar_test_keys in
     mret (Response features))
    (λ e, mret (HTTPException 500 ("Error fetching bar features: " +:+ str e))).

Definition get_bar_data (feature : string) (start_date end_date : option string)
    (bin_size : string) : M (http bar_data_response) :=
  try_except
    (data ← get_bar_data test_data bar_test_data depth feature start_date end_date
              bin_size;
     mret (Response (mk_bar_data_response data feature bin_size)))
    (λ e, mret (HTTPException 500 ("Error fetching bar data: " +:+ str e))).

Definition clear_cache : M (http string) :=
  try_except
    (clear_cache;;
     mret (Response "Cache cleared successfully"))
    (λ e, mret (HTTPException 500 ("Error clearing cache: " +:+ str e))).

Definition get_cache_status : M (http cache_status) :=
  try_except
    (status ← get_cache_status;
     mret (Response status))
    (λ e, mret (HTTPException 500 ("Error getting cache status: " +:+ str e))).

End Endpoints.
End events.

(** * Specification vocabulary

    Definitions used to state the properties: none of them is code of the
    handler. *)

(** A column value that is a datetime object, hence a valid one. *)
Definition is_timestamp (ts : pyobj) : bool :=
  match ts with VDatetime t => valid_datetime t | _ => false end.

(** A calendar date written [YYYY-MM-DD] ([date.isoformat]). *)
Definition isoformat_date (y m d : Z) : string :=
  zfill 4 y +:+ "-" +:+ zfill 2 m +:+ "-" +:+ zfill 2 d.

(** The columnar invariant: every column has the same number of rows. *)
Definition row_aligned (d : dataset) : Prop :=
  ∃ n, map_Forall (λ _ col, length col = n) d.

(** The sum of the counts of a list of records. *)
Definition sum_counts (l : list bar_record) : Z :=
  foldr (λ r acc, count r + acc) 0 l.

(** One pass of the counting loop on a row whose key and value were read. *)
Definition bump (key : string) (v : pyobj) (bins : bins_t) : bins_t :=
  let bins := if dict_get key bins is None then dict_set key [] bins else bins in
  let counts := default [] (dict_get key bins) in
  dict_set key (dict_set v (default 0 (dict_get v counts) + 1) counts) bins.

Definition counts_total (counts : list (pyobj * Z)) : Z :=
  foldr (λ p acc, p.2 + acc) 0 counts.

Definition bucket_total (b : string) (bins : bins_t) : Z :=
  counts_total (default [] (dict_get b bins)).

(** The loop invariant of the counting: keys are distinct at both levels and
    every counter is positive. *)
Definition good_counts (counts : list (pyobj * Z)) : Prop :=
  NoDup counts.*1 ∧ Forall (λ p, 1 <= p.2) counts.

Definition good_bins (bins : bins_t) : Prop :=
  NoDup bins.*1 ∧ Forall (λ p, good_counts p.2) bins.

Definition emit_counts (key : string) (counts : list (pyobj * Z)) : list bar_record :=
  map (λ '(v, c), mk_bar_record key v c) counts.

(** [start_dt <= t <= end_dt] on datetimes. *)
Definition window_keep (start_dt end_dt t : datetime) : bool :=
  datetime_le start_dt t && datetime_le t end_dt.

(** The indices [filter_indices] keeps, and the values of a column at the
    rows it keeps. *)
Fixpoint kept (keep : datetime → bool) (i : nat) (ts : list datetime) : list nat :=
  match ts with
  | [] => []
  | t :: ts' => if keep t then i :: kept keep (S i) ts' else kept keep (S i) ts'
  end.

Definition select {A : Type} (keep : datetime → bool) (ts : list datetime)
    (col : list A) : list A :=
  (filter (λ p, keep p.1 = true) (zip ts col)).*2.

(** The rows the date window leaves: all of them when a date is missing or
    empty, and the exception of the parser when a date does not parse. *)
Definition retained_rows (s e : option string) (ts : list datetime)
  : result (list datetime) :=
  if truthy_str s && truthy_str e then
    start_dt ← fromisoformat (default "" s);
    end_dt ← fromisoformat (default "" e);
    Ok (filter (λ t, window_keep start_dt (replace_hms end_dt 23 59 59) t = true) ts)
  else Ok ts.

(** The cached bar dataset is absent or is the module-level dataset: the only
    assignments to [self.bar_data] are [None] and [bar_test_data]. *)
Definition cache_inv (bar_test_data : dataset) (h : KustoHandler) : Prop :=
  bar_data h = None ∨ bar_data h = Some bar_test_data.

(** The worlds a handler can be in: created by [__init__], then any sequence
    of calls of its methods. *)
Inductive reachable (test_data bar_test_data : dataset) : world → Prop :=
| reach_init clk k out r : reachable test_data bar_test_data (mk_world __init__ clk k out r)
| reach_get_data query w :
    reachable test_data bar_test_data w →
    reachable test_data bar_test_data (get_data test_data bar_test_data query w).2
| reach_get_bar_data depth feature s e bin w :
    reachable test_data bar_test_data w →
    reachable test_data bar_test_data
      (get_bar_data test_data bar_test_data depth feature s e bin w).2
| reach_clear_cache w :
    reachable test_data bar_test_data w →
    reachable test_data bar_test_data (clear_cache w).2
| reach_get_cache_status w :
    reachable test_data bar_test_data w →
    reachable test_data bar_test_data (get_cache_status w).2.

(** What [get_bar_data] returns, as a function of the request and of the
    module-level dataset alone. *)
Definition filtered_of (bar : dataset) (feature : string)
    (start_date end_date : option string) : result dataset :=
  if truthy_str start_date && truthy_str end_date && truthy_dict (Some bar) then
    range_filter bar feature (default "" start_date) (default "" end_date) bar
  else Ok bar.

Definition bar_output (bar : dataset) (feature : string)
    (start_date end_date : option string) (bin_size : string)
  : result (list bar_record) :=
  fd ← filtered_of bar feature start_date end_date;
  count_by (default day_key (bucket_key bin_size)) fd feature.

Definition not_recursion {A : Type} (r : result A) : Prop := r ≠ Raise RecursionError.

(** The last lines of [_ord2ymd]: month and day from the day of the year,
    and the check that they are right. *)
Definition month_day (leapyear : bool) (n : Z) : Z * Z :=
  let month := Z.shiftr (n + 50) 5 in
  let preceding :=
    _DAYS_BEFORE_MONTH month + (if (2 <? month) && leapyear then 1 else 0) in
  if n <? preceding then
    let month := month - 1 in
    let preceding :=
      preceding - (_DAYS_IN_MONTH month + (if (month =? 2) && leapyear then 1 else 0)) in
    (month, n - preceding + 1)
  else (month, n - preceding + 1).

Definition month_day_ok (leapyear : bool) (n : Z) : bool :=
  let '(m, d) := month_day leapyear n in
  (1 <=? m) && (m <=? 12) && (1 <=? d)
  && (d <=? _DAYS_IN_MONTH m + (if (m =? 2) && leapyear then 1 else 0))
  && (_DAYS_BEFORE_MONTH m + (if (2 <? m) && leapyear then 1 else 0) + d =? n + 1).

Fixpoint all_from (f : Z → bool) (start : Z) (len : nat) : bool :=
  match len with
  | O => true
  | S len' => f start && all_from f (start + 1) len'
  end.

(** The counter of the pair (bucket, value), 0 when there is none. *)
Definition pair_count (b : string) (v : pyobj) (bins : bins_t) : Z :=
  default 0 (dict_get v (default [] (dict_get b bins))).

(** The rows with bucket key [b] and feature value [v]. *)
Definition rows_with (key_of : pyobj → result string) (b : string) (v : pyobj)
    (rows col : list pyobj) : list (pyobj * pyobj) :=
  filter (λ p, key_of p.1 = Ok b ∧ p.2 = v) (zip rows col).

(** The sum of all the counters. *)
Definition total_all (bins : bins_t) : Z :=
  foldr (λ p acc, counts_total p.2 + acc) 0 bins.

(** The loop as a fold over the (key, value) pairs of the rows. *)
Definition bump_all (bins : bins_t) (kvs : list (string * pyobj)) : bins_t :=
  foldl (λ acc kv, bump kv.1 kv.2 acc) bins kvs.

(** The keys in the order in which a list first mentions them. *)
Definition first_seen_step (acc : list string) (k : string) : list string :=
  if decide (k ∈ acc) then acc else acc ++ [k].

Definition first_seen (l : list string) : list string := foldl first_seen_step [] l.

(** Every bucket has a counter: a bucket is created when a row needs it. *)
Definition nonempty_bins (bins : bins_t) : Prop := Forall (λ p, p.2 ≠ []) bins.

(** The start of the period a bucket stands for. *)
Definition start_of_day (t : datetime) : datetime :=
  mk_datetime (year t) (month t) (day t) 0 0 0 0.

Definition start_of_hour (t : datetime) : datetime :=
  mk_datetime (year t) (month t) (day t) (hour t) 0 0 0.

(** Whether a slot loaded at [last] is fresh at the next clock reading. *)
Definition fresh (w : world) (last : option datetime) : bool :=
  from_option
    (λ T, total_seconds_lt (datetime_sub (clock w (ticks w)) T) (cache_duration (self w)))
    false last.

(** A slot is empty, with no load time, or holds the module-level dataset
    and the load time is a clock reading already taken. *)
Definition slot_ok (source : dataset) (w : world)
    (slot : option dataset) (last : option datetime) : Prop :=
  (slot = None ∧ last = None)
  ∨ (slot = Some source ∧ ∃ k, (k < ticks w)%nat ∧ last = Some (clock w k)).

(** The invariant of the handler across calls. *)
Definition slots_consistent (test_data bar_test_data : dataset) (w : world) : Prop :=
  slot_ok test_data w (data (self w)) (last_load_time (self w))
  ∧ slot_ok bar_test_data w (bar_data (self w)) (bar_last_load_time (self w))
  ∧ cache_duration (self w) = 600.

(** The line slot and the TTL of two worlds are the same. *)
Definition same_line_slot (w w' : world) : Prop :=
  data (self w') = data (self w)
  ∧ last_load_time (self w') = last_load_time (self w)
  ∧ cache_duration (self w') = cache_duration (self w).

(** The bar slot and the TTL of two worlds are the same. *)
Definition same_bar_slot (w w' : world) : Prop :=
  bar_data (self w') = bar_data (self w)
  ∧ bar_last_load_time (self w') = bar_last_load_time (self w)
  ∧ cache_duration (self w') = cache_duration (self w).

(** [keys] lists the keys of [d], each once. *)
Definition keys_of (d : dataset) (keys : list string) : Prop :=
  NoDup keys ∧ ∀ k, k ∈ keys ↔ is_Some (d !! k).



(** [sizes !! i] copies of [keys !! i], one key after the other. *)
Definition blocks (keys : list string) (sizes : list nat) : list string :=
  mjoin (zip_with (λ k n, replicate n k) keys sizes).

(** ** Example data *)

Definition ex_t1 : datetime := mk_datetime 2024 1 1 0 0 0 0.
Definition ex_t2 : datetime := mk_datetime 2024 1 3 23 59 59 0.

Definition ex_rows : dataset :=
  <["timestamp" := [VDatetime ex_t1; VDatetime ex_t2]]>
  (<["status" := [VStr "active"; VStr "failed"]]>
  (<["user" := [VStr "alice"; VStr "bob"]]> ∅)).

(** A handler just created, with a clock stopped at noon of 2024-06-01. *)
Definition ex_world : world :=
  mk_world __init__ (λ _, mk_datetime 2024 6 1 12 0 0 0) 0 [] 0.

(** The keys of [ex_rows], in the order of the dict. *)
Definition ex_keys : list string := ["timestamp"; "status"; "user"].

(** * Proofs *)

(** ** The proleptic Gregorian calendar *)

Ltac zdm := Z.div_mod_to_equations; lia.

Lemma all_from_spec f start len z :
  all_from f start len = true → start <= z < start + Z.of_nat len → f z = true.
Proof.
  revert start. induction len as [|len IH]; intros start H Hz; [lia|].
  simpl in H. apply andb_prop in H as [H1 H2].
  destruct (decide (z = start)) as [->|]; [done|].
  apply (IH (start + 1)); [done|lia].
Qed.

Lemma month_day_year : ∀ leapyear n, 0 <= n < 365 → month_day_ok leapyear n = true.
Proof.
  assert (H : all_from (month_day_ok true) 0 365 && all_from (month_day_ok false) 0 365 = true)
    by (vm_compute; reflexivity).
  apply andb_prop in H as [Ht Hf].
  intros [] n Hn; [apply (all_from_spec _ _ _ _ Ht)|apply (all_from_spec _ _ _ _ Hf)]; lia.
Qed.

Lemma ord2ymd_unfold n :
  _ord2ymd n =
  let n0 := n - 1 in
  let n400 := n0 / _DI400Y in
  let r400 := n0 mod _DI400Y in
  let n100 := r400 / _DI100Y in
  let r100 := r400 mod _DI100Y in
  let n4 := r100 / _DI4Y in
  let r4 := r100 mod _DI4Y in
  let n1 := r4 / 365 in
  let r1 := r4 mod 365 in
  let y := n400 * 400 + 1 + (n100 * 100 + n4 * 4 + n1) in
  if (n1 =? 4) || (n100 =? 4) then (y - 1, 12, 31)
  else let '(m, d) := month_day ((n1 =? 3) && (negb (n4 =? 24) || (n100 =? 3))) r1 in
       (y, m, d).
Proof.
  unfold _ord2ymd, month_day. cbv zeta.
  destruct (_ || _); [done|]. by destruct (_ <? _).
Qed.

Lemma ord2ymd_ymd2ord n :
  1 <= n <= _MAXORDINAL →
  ∃ y m d, _ord2ymd n = (y, m, d) ∧ valid_date y m d = true ∧ _ymd2ord y m d = n.
Proof.
  intros Hn. rewrite ord2ymd_unfold. cbv zeta.
  unfold _MAXORDINAL, _DI400Y, _DI100Y, _DI4Y in *.
  set (n0 := n - 1).
  set (n400 := n0 / 146097). set (r400 := n0 mod 146097).
  set (n100 := r400 / 36524). set (r100 := r400 mod 36524).
  set (n4 := r100 / 1461). set (r4 := r100 mod 1461).
  set (n1 := r4 / 365). set (r1 := r4 mod 365).
  assert (H400 : n0 = 146097 * n400 + r400 ∧ 0 <= r400 < 146097 ∧ 0 <= n400 <= 24)
    by (subst n400 r400 n0; zdm).
  assert (H100 : r400 = 36524 * n100 + r100 ∧ 0 <= r100 < 36524 ∧ 0 <= n100 <= 4)
    by (subst n100 r100; zdm).
  assert (H4 : r100 = 1461 * n4 + r4 ∧ 0 <= r4 < 1461 ∧ 0 <= n4 <= 24)
    by (subst n4 r4; zdm).
  assert (H1 : r4 = 365 * n1 + r1 ∧ 0 <= r1 < 365 ∧ 0 <= n1 <= 4)
    by (subst n1 r1; zdm).
  clearbody n400 r400 n100 r100 n4 r4 n1 r1.
  destruct H400 as (E400 & B400 & Q400). destruct H100 as (E100 & B100 & Q100).
  destruct H4 as (E4 & B4 & Q4). destruct H1 as (E1 & B1 & Q1).
  set (y := n400 * 400 + 1 + (n100 * 100 + n4 * 4 + n1)).
  destruct ((n1 =? 4) || (n100 =? 4)) eqn:Hsp.
  - exists (y - 1), 12, 31. split; [done|].
    assert (Hy : y - 1 = 400 * n400 + 100 * n100 + 4 * n4 + n1) by (subst y; lia).
    assert (Hc : (n1 = 4 ∧ n100 <= 3 ∧ n4 <= 23 ∧ r1 = 0)
                 ∨ (n100 = 4 ∧ n4 = 0 ∧ n1 = 0 ∧ r1 = 0)).
    { apply orb_prop in Hsp as [?%Z.eqb_eq|?%Z.eqb_eq]; lia. }
    assert (Hleap : _is_leap (y - 1) = true).
    { unfold _is_leap. rewrite Hy.
      assert ((400 * n400 + 100 * n100 + 4 * n4 + n1) mod 4 = 0) as -> by zdm.
      simpl. apply orb_true_iff.
      destruct Hc as [Hc|Hc].
      - left. apply negb_true_iff, Z.eqb_neq. zdm.
      - right. apply Z.eqb_eq. zdm. }
    assert (Hd : _days_before_year (y - 1) = n0 - 365).
    { unfold _days_before_year. cbv zeta. rewrite Hy. zdm. }
    split.
    + unfold valid_date, _days_in_month. rewrite Hleap. simpl.
      repeat (apply andb_true_intro; split); try done; apply Z.leb_le; lia.
    + unfold _ymd2ord, _days_before_month. rewrite Hd, Hleap. simpl. lia.
  - apply orb_false_elim in Hsp as [Hn1%Z.eqb_neq Hn100%Z.eqb_neq].
    set (leap := (n1 =? 3) && (negb (n4 =? 24) || (n100 =? 3))).
    pose proof (month_day_year leap r1 ltac:(lia)) as Hmd. unfold month_day_ok in Hmd.
    destruct (month_day leap r1) as [m d].
    exists y, m, d. split; [done|].
    assert (Hy : y - 1 = 400 * n400 + 100 * n100 + 4 * n4 + n1) by (subst y; lia).
    assert (Hleap : _is_leap y = leap).
    { unfold _is_leap, leap. replace y with (400 * n400 + 100 * n100 + 4 * n4 + n1 + 1) by lia.
      destruct (n1 =? 3) eqn:E3; destruct (n4 =? 24) eqn:E24; destruct (n100 =? 3) eqn:E103;
        rewrite ?Z.eqb_eq, ?Z.eqb_neq in *; simpl;
        repeat match goal with
               | |- context [?a mod ?b =? 0] =>
                 let H := fresh in destruct (a mod b =? 0) eqn:H;
                 rewrite ?Z.eqb_eq, ?Z.eqb_neq in H
               end; simpl; try done; exfalso; zdm. }
    assert (Hd : _days_before_year y = n0 - r1).
    { unfold _days_before_year. cbv zeta. rewrite Hy. zdm. }
    repeat (apply andb_prop in Hmd as [Hmd ?]).
    rewrite ?Z.leb_le, ?Z.eqb_eq in *.
    split.
    + unfold valid_date, _days_in_month. rewrite Hleap.
      repeat (apply andb_true_intro; split); try (apply Z.leb_le; lia).
      apply Z.leb_le. destruct (m =? 2) eqn:Hm2; [|simpl in *; lia].
      apply Z.eqb_eq in Hm2. subst m. simpl in *. destruct leap; simpl in *; lia.
    + unfold _ymd2ord, _days_before_month. rewrite Hd, Hleap. lia.
Qed.

Lemma month_cases m : 1 <= m <= 12 →
  m = 1 ∨ m = 2 ∨ m = 3 ∨ m = 4 ∨ m = 5 ∨ m = 6 ∨ m = 7 ∨ m = 8 ∨ m = 9 ∨ m = 10
  ∨ m = 11 ∨ m = 12.
Proof. lia. Qed.

Lemma valid_date_bounds y m d :
  valid_date y m d = true →
  1 <= y <= 9999 ∧ 1 <= m <= 12 ∧ 1 <= d <= _days_in_month y m.
Proof. unfold valid_date. rewrite !andb_true_iff. lia. Qed.

Lemma dby_succ y :
  _days_before_year (y + 1) = _days_before_year y + 365 + (if _is_leap y then 1 else 0).
Proof.
  unfold _days_before_year, _is_leap. cbv zeta.
  replace (y + 1 - 1) with y by lia.
  destruct (y mod 4 =? 0) eqn:H4; destruct (y mod 100 =? 0) eqn:H100;
    destruct (y mod 400 =? 0) eqn:H400; simpl;
    rewrite ?Z.eqb_eq, ?Z.eqb_neq in *; zdm.
Qed.

Lemma dby_le y1 y2 : y1 <= y2 → _days_before_year y1 <= _days_before_year y2.
Proof.
  intros Hle. unfold _days_before_year. cbv zeta. zdm.
Qed.

Lemma ymd2ord_in_year y m d :
  valid_date y m d = true →
  _days_before_year y < _ymd2ord y m d <= _days_before_year (y + 1).
Proof.
  intros (Hy & Hm & Hd)%valid_date_bounds.
  rewrite dby_succ. unfold _ymd2ord, _days_before_month, _days_in_month in *.
  destruct (_is_leap y);
    destruct (month_cases m Hm) as [->|[->|[->|[->|[->|[->|[->|[->|[->|[->|[->| ->]]]]]]]]]]];
    simpl in *; lia.
Qed.

Lemma ymd2ord_bounds y m d :
  valid_date y m d = true → 1 <= _ymd2ord y m d <= _MAXORDINAL.
Proof.
  intros Hv. pose proof (ymd2ord_in_year _ _ _ Hv) as Hin.
  apply valid_date_bounds in Hv as (Hy & _).
  pose proof (dby_le 1 y ltac:(lia)) as H1.
  pose proof (dby_le (y + 1) 10000 ltac:(lia)) as H2.
  change (_days_before_year 1) with 0 in H1.
  change (_days_before_year 10000) with _MAXORDINAL in H2. lia.
Qed.

Lemma ymd2ord_month_lt y m1 d1 m2 d2 :
  valid_date y m1 d1 = true → valid_date y m2 d2 = true → m1 < m2 →
  _ymd2ord y m1 d1 < _ymd2ord y m2 d2.
Proof.
  intros (Hy & Hm1 & Hd1)%valid_date_bounds (_ & Hm2 & Hd2)%valid_date_bounds Hlt.
  unfold _ymd2ord, _days_before_month, _days_in_month in *.
  destruct (_is_leap y);
    destruct (month_cases m1 Hm1) as [->|[->|[->|[->|[->|[->|[->|[->|[->|[->|[->| ->]]]]]]]]]]];
    destruct (month_cases m2 Hm2) as [->|[->|[->|[->|[->|[->|[->|[->|[->|[->|[->| ->]]]]]]]]]]];
    simpl in *; lia.
Qed.

Lemma ymd2ord_year_lt y1 m1 d1 y2 m2 d2 :
  valid_date y1 m1 d1 = true → valid_date y2 m2 d2 = true → y1 < y2 →
  _ymd2ord y1 m1 d1 < _ymd2ord y2 m2 d2.
Proof.
  intros H1%ymd2ord_in_year H2%ymd2ord_in_year Hlt.
  pose proof (dby_le (y1 + 1) y2 ltac:(lia)). lia.
Qed.

(** On datetime objects the field-wise comparison is the order of time. *)
Lemma datetime_le_chronological a b :
  valid_datetime a = true → valid_datetime b = true →
  datetime_le a b = true ↔ 0 <= datetime_sub b a.
Proof.
  intros [Hda Hta]%andb_prop [Hdb Htb]%andb_prop.
  unfold valid_time in *. rewrite !andb_true_iff, !Z.leb_le in Hta, Htb.
  unfold datetime_le, datetime_cmp, datetime_sub, toordinal.
  destruct a as [ya ma da ha mia sa ua], b as [yb mb db hb mib sb ub]. simpl in *.
  destruct (Z.compare_spec ya yb) as [->|Hy|Hy].
  - destruct (Z.compare_spec ma mb) as [->|Hm|Hm].
    + destruct (Z.compare_spec da db) as [->|Hd|Hd].
      * destruct (Z.compare_spec ha hb) as [->|?|?];
          [destruct (Z.compare_spec mia mib) as [->|?|?];
             [destruct (Z.compare_spec sa sb) as [->|?|?];
                [destruct (Z.compare_spec ua ub) as [->|?|?]|..]|..]|..];
          split; (done || lia).
      * assert (_ymd2ord yb mb da < _ymd2ord yb mb db) by (unfold _ymd2ord; lia).
        split; [lia|done].
      * assert (_ymd2ord yb mb db < _ymd2ord yb mb da) by (unfold _ymd2ord; lia).
        split; [done|lia].
    + pose proof (ymd2ord_month_lt yb ma da mb db Hda Hdb Hm). split; [lia|done].
    + pose proof (ymd2ord_month_lt yb mb db ma da Hdb Hda Hm). split; [done|lia].
  - pose proof (ymd2ord_year_lt ya ma da yb mb db Hda Hdb Hy). split; [lia|done].
  - pose proof (ymd2ord_year_lt yb mb db ya ma da Hdb Hda Hy). split; [done|lia].
Qed.

Lemma week_start_ok t :
  valid_datetime t = true →
  ∃ monday, datetime_sub_days t (weekday t) = Ok monday
    ∧ valid_datetime monday = true
    ∧ weekday monday = 0
    ∧ toordinal monday <= toordinal t < toordinal monday + 7
    ∧ (hour monday, minute monday, second monday, microsecond monday)
      = (hour t, minute t, second t, microsecond t).
Proof.
  intros [Hd Ht]%andb_prop. pose proof (ymd2ord_bounds _ _ _ Hd) as Hb.
  fold (toordinal t) in Hb. unfold datetime_sub_days, weekday. cbv zeta.
  set (n := toordinal t) in *.
  assert (Hn : 1 <= n - (n + 6) mod 7 <= _MAXORDINAL) by zdm.
  destruct (ord2ymd_ymd2ord _ Hn) as (y & m & d & Hord & Hv & Heq).
  rewrite Hord.
  replace ((0 <? n - (n + 6) mod 7) && (n - (n + 6) mod 7 <=? _MAXORDINAL)) with true
    by (symmetry; apply andb_true_intro; split; [apply Z.ltb_lt|apply Z.leb_le]; lia).
  eexists. split; [reflexivity|].
  unfold valid_datetime, toordinal. simpl. rewrite Hv, Ht, Heq.
  split_and!; [done|zdm|zdm|zdm|done].
Qed.

(** ** Insertion-ordered dictionaries and the counting loop *)

Section PyDictFacts.
Context {K V : Type} `{EqDecision K}.
Implicit Types (d : list (K * V)).

Lemma dict_get_set_eq k v d : dict_get k (dict_set k v d) = Some v.
Proof.
  induction d as [|[k' v'] d IH]; csimpl.
  - by rewrite decide_True.
  - destruct (decide (k = k')) as [->|Hne]; csimpl.
    + by rewrite decide_True.
    + by rewrite decide_False.
Qed.

Lemma dict_get_set_ne k k' v d : k ≠ k' → dict_get k' (dict_set k v d) = dict_get k' d.
Proof.
  intros Hne. induction d as [|[k0 v0] d IH]; csimpl.
  - by rewrite decide_False.
  - destruct (decide (k = k0)) as [->|Hne0]; csimpl.
    + by rewrite !decide_False.
    + by rewrite IH.
Qed.

Lemma dict_set_keys k v d :
  (dict_set k v d).*1 = if dict_get k d is Some _ then d.*1 else d.*1 ++ [k].
Proof.
  induction d as [|[k0 v0] d IH]; csimpl; [done|].
  destruct (decide (k = k0)) as [->|Hne]; csimpl; [done|].
  rewrite IH. by destruct (dict_get k d).
Qed.

Lemma dict_get_None k d : dict_get k d = None ↔ k ∉ d.*1.
Proof.
  induction d as [|[k0 v0] d IH]; csimpl.
  - split; [intros _; apply not_elem_of_nil | done].
  - rewrite not_elem_of_cons. destruct (decide (k = k0)) as [->|Hne].
    + split; [done|]. by intros [? _].
    + rewrite IH. split; [done|]. by intros [_ ?].
Qed.

Lemma dict_set_NoDup k v d : NoDup d.*1 → NoDup (dict_set k v d).*1.
Proof.
  intros Hd. rewrite dict_set_keys. destruct (dict_get k d) eqn:Hg; [done|].
  apply NoDup_app. split_and!; [done| |apply NoDup_singleton].
  intros x Hx ->%list_elem_of_singleton. by apply dict_get_None in Hg.
Qed.

Lemma dict_set_Forall (P : K * V → Prop) k v d :
  Forall P d → P (k, v) → Forall P (dict_set k v d).
Proof.
  intros Hd Hp. induction Hd as [|[k0 v0] d Hx Hd IH]; csimpl.
  - by constructor.
  - destruct (decide (k = k0)); constructor; auto.
Qed.

Lemma dict_get_Some_elem k v d : dict_get k d = Some v → (k, v) ∈ d.
Proof.
  induction d as [|[k0 v0] d IH]; csimpl; [done|].
  destruct (decide (k = k0)) as [->|]; [intros [= ->]; left | right; auto].
Qed.
End PyDictFacts.

Lemma counts_total_set v c counts :
  counts_total (dict_set v c counts) = counts_total counts - default 0 (dict_get v counts) + c.
Proof.
  induction counts as [|[v0 c0] counts IH]; simpl; [lia|].
  destruct (decide (v = v0)); simpl; lia.
Qed.

Lemma dict_get_good key bins :
  good_bins bins → good_counts (default [] (dict_get key bins)).
Proof.
  intros [_ Hall]. destruct (dict_get key bins) as [counts|] eqn:Hg; simpl.
  - apply dict_get_Some_elem in Hg. rewrite Forall_forall in Hall. by apply (Hall _ Hg).
  - split; constructor.
Qed.

Lemma good_bump key v bins : good_bins bins → good_bins (bump key v bins).
Proof.
  intros Hgood. unfold bump. cbv zeta.
  set (bins1 := if dict_get key bins is None then dict_set key [] bins else bins).
  assert (Hg1 : good_bins bins1).
  { subst bins1. destruct (dict_get key bins); [done|]. destruct Hgood as [Hn Ha]. split.
    - by apply dict_set_NoDup.
    - apply dict_set_Forall; [done|]. split; constructor. }
  clearbody bins1. pose proof (dict_get_good key bins1 Hg1) as [Hcn Hca].
  destruct Hg1 as [Hn Ha]. split; [by apply dict_set_NoDup|].
  apply dict_set_Forall; [done|]. split; simpl.
  - by apply dict_set_NoDup.
  - apply dict_set_Forall; [done|]. simpl.
    destruct (dict_get v _) as [c|] eqn:Hv; simpl; [|lia].
    apply dict_get_Some_elem in Hv. rewrite Forall_forall in Hca.
    specialize (Hca _ Hv). simpl in Hca. lia.
Qed.

Lemma bucket_total_bump b key v bins :
  bucket_total b (bump key v bins) = bucket_total b bins + (if decide (b = key) then 1 else 0).
Proof.
  unfold bump, bucket_total. cbv zeta.
  set (bins1 := if dict_get key bins is None then dict_set key [] bins else bins).
  assert (Hb1 : ∀ b, default [] (dict_get b bins1) = default [] (dict_get b bins)).
  { intros b'. subst bins1. destruct (dict_get key bins) eqn:Hg; [done|].
    destruct (decide (key = b')) as [->|Hne].
    - by rewrite dict_get_set_eq, Hg.
    - by rewrite dict_get_set_ne. }
  clearbody bins1. destruct (decide (b = key)) as [->|Hne].
  - rewrite dict_get_set_eq. simpl. rewrite counts_total_set, Hb1. lia.
  - rewrite dict_get_set_ne by done. rewrite Hb1. lia.
Qed.

Lemma emit_cons key counts bins :
  emit ((key, counts) :: bins) = emit_counts key counts ++ emit bins.
Proof. reflexivity. Qed.

Lemma emit_counts_same key counts :
  filter (λ r, date r = key) (emit_counts key counts) = emit_counts key counts.
Proof.
  induction counts as [|[v c] counts IH]; [done|]. simpl.
  rewrite filter_cons_True by done. by rewrite IH.
Qed.

Lemma emit_counts_other b key counts :
  b ≠ key → filter (λ r, date r = b) (emit_counts key counts) = [].
Proof.
  intros Hne. induction counts as [|[v c] counts IH]; [done|]. simpl.
  rewrite filter_cons_False by (simpl; congruence). done.
Qed.

Lemma sum_counts_app l1 l2 : sum_counts (l1 ++ l2) = sum_counts l1 + sum_counts l2.
Proof. induction l1 as [|r l1 IH]; simpl; lia. Qed.

Lemma sum_counts_emit_counts key counts :
  sum_counts (emit_counts key counts) = counts_total counts.
Proof. induction counts as [|[v c] counts IH]; simpl; [done|]. by rewrite IH. Qed.

Lemma emit_absent b bins : b ∉ bins.*1 → filter (λ r, date r = b) (emit bins) = [].
Proof.
  induction bins as [|[key counts] bins IH]; [done|]. rewrite emit_cons, fmap_cons.
  intros [Hne Hb]%not_elem_of_cons. rewrite filter_app.
  by rewrite emit_counts_other, IH.
Qed.

Lemma sum_counts_emit b bins :
  NoDup bins.*1 → sum_counts (filter (λ r, date r = b) (emit bins)) = bucket_total b bins.
Proof.
  unfold bucket_total. induction bins as [|[key counts] bins IH]; [done|].
  rewrite emit_cons, fmap_cons.
  intros [Hk Hn]%NoDup_cons. rewrite filter_app, sum_counts_app. simpl.
  destruct (decide (b = key)) as [->|Hne].
  - rewrite emit_counts_same, sum_counts_emit_counts, emit_absent by done. simpl. lia.
  - rewrite emit_counts_other by done. rewrite IH by done. simpl. done.
Qed.

Lemma emit_Forall bins : good_bins bins → Forall (λ r, 1 <= count r) (emit bins).
Proof.
  intros [_ Hall]. induction Hall as [|[key counts] bins [_ Hc] Hall IH]; [constructor|].
  rewrite emit_cons. apply Forall_app. split; [|done].
  clear -Hc. simpl in Hc. induction Hc as [|[v c] counts Hv Hc IH]; constructor; done.
Qed.

Lemma emit_dates bins r : r ∈ emit bins → date r ∈ bins.*1.
Proof.
  induction bins as [|[key counts] bins IH]; [by intros ?%elem_of_nil|].
  rewrite emit_cons, fmap_cons. intros [Hr|Hr]%elem_of_app.
  - unfold emit_counts in Hr.
    apply list_elem_of_fmap in Hr as ([v c] & -> & _). apply list_elem_of_here.
  - apply list_elem_of_further. auto.
Qed.

Lemma emit_NoDup bins :
  good_bins bins → NoDup ((λ r, (date r, value r)) <$> emit bins).
Proof.
  intros [Hn Hall]. induction bins as [|[key counts] bins IH]; [constructor|].
  rewrite fmap_cons in Hn. apply NoDup_cons in Hn as [Hk Hn].
  apply Forall_cons in Hall as [[Hc _] Hall]. simpl in Hc.
  rewrite emit_cons, fmap_app. apply NoDup_app. split_and!.
  - clear -Hc. induction counts as [|[v c] counts IH]; [constructor|].
    csimpl in Hc. apply NoDup_cons in Hc as [Hv Hc]. csimpl. apply NoDup_cons. split; [|auto].
    intros Hin. apply list_elem_of_fmap in Hin as (r & Heq & Hr).
    unfold emit_counts in Hr. apply list_elem_of_fmap in Hr as ([v' c'] & -> & Hin).
    simpl in Heq. injection Heq as <-. apply Hv. apply list_elem_of_fmap. by exists (v, c').
  - intros p Hp1 Hp2.
    apply list_elem_of_fmap in Hp1 as (r1 & -> & Hr1).
    apply list_elem_of_fmap in Hp2 as (r2 & Heq & Hr2).
    unfold emit_counts in Hr1. apply list_elem_of_fmap in Hr1 as ([v c] & -> & _).
    simpl in Heq. injection Heq as Hd Hv. apply emit_dates in Hr2.
    apply Hk. simpl. by rewrite Hd.
  - by apply IH.
Qed.

Section CountingLoop.
Variable key_of : pyobj → result string.
Variable fd : dataset.
Variable feature : string.
Variable col : list pyobj.
Hypothesis Hcol : fd !! feature = Some col.

Lemma count_row_ok bins i ts key v :
  key_of ts = Ok key → col !! i = Some v →
  count_row key_of fd feature bins i ts = Ok (bump key v bins).
Proof.
  intros Hk Hv. unfold count_row, getitem, index.
  rewrite Hk, Hcol. simpl. rewrite Hv. reflexivity.
Qed.

Lemma count_rows_spec rows : ∀ bins i,
  Forall (λ ts, ∃ key, key_of ts = Ok key) rows →
  (i + length rows ≤ length col)%nat →
  good_bins bins →
  ∃ bins', count_rows key_of fd feature bins i rows = Ok bins' ∧ good_bins bins' ∧
    ∀ b, bucket_total b bins'
         = bucket_total b bins + Z.of_nat (length (filter (λ ts, key_of ts = Ok b) rows)).
Proof.
  induction rows as [|ts rows IH]; intros bins i Hkeys Hlen Hgood.
  - exists bins. split_and!; [done..|]. intros b. simpl. lia.
  - apply Forall_cons in Hkeys as [[key Hkey] Hkeys]. simpl in Hlen.
    destruct (lookup_lt_is_Some_2 col i) as [v Hv]; [lia|].
    destruct (IH (bump key v bins) (S i)) as (bins' & Hrun & Hg & Htot);
      [done|lia|by apply good_bump|].
    exists bins'. split_and!; [|done|].
    + simpl. rewrite (count_row_ok _ _ _ key v) by done. exact Hrun.
    + intros b. rewrite Htot, bucket_total_bump.
      destruct (decide (b = key)) as [->|Hne].
      * rewrite filter_cons_True by done. simpl. lia.
      * rewrite filter_cons_False by congruence. lia.
Qed.
End CountingLoop.

(** ** Bucket keys *)

Lemma bucket_key_total bin key_of ts :
  bucket_key bin = Some key_of → is_timestamp ts = true → ∃ key, key_of ts = Ok key.
Proof.
  intros Hb Hts. destruct ts as [| |t]; try done. simpl in Hts.
  unfold bucket_key in Hb.
  repeat case_match; simplify_eq; try (eexists; reflexivity).
  destruct (week_start_ok t Hts) as (monday & Hm & _).
  unfold week_key. simpl. rewrite Hm. eexists; reflexivity.
Qed.

(** C7. For every timestamp [t] the start of the week the code computes,
    [t - timedelta(days=t.weekday())], is a Monday that is on or at most six
    days before the date of [t]; when that Monday is in year 1000 or later
    the week key is its date written [YYYY-MM-DD]. A timestamp on
    2024-03-15, a Friday, has the key [2024-03-11]. *)
Theorem week_key_is_monday (t : datetime) :
  valid_datetime t = true →
  (∃ monday,
      datetime_sub_days t (weekday t) = Ok monday
      ∧ valid_datetime monday = true
      ∧ weekday monday = 0
      ∧ toordinal monday <= toordinal t < toordinal monday + 7
      ∧ (1000 <= year monday →
         week_key (VDatetime t)
         = Ok (zfill 4 (year monday) +:+ "-" +:+ zfill 2 (month monday) +:+ "-"
               +:+ zfill 2 (day monday))))
  ∧ ((year t, month t, day t) = (2024, 3, 15) →
      weekday t = 4 ∧ week_key (VDatetime t) = Ok "2024-03-11").
Proof.
  intros Hv. split.
  - destruct (week_start_ok t Hv) as (monday & Hm & Hvm & Hw & Hord & _).
    exists monday. do 4 (split; [done|]).
    intros _. unfold week_key. simpl. rewrite Hm. reflexivity.
  - intros [= Hy Hm Hd]. destruct t as [y m d h mi s us]. simpl in *. subst.
    split; reflexivity.
Qed.

Lemma week_key_is_monday_witness :
  valid_datetime (mk_datetime 2024 3 15 9 30 0 0) = true
  ∧ week_key (VDatetime (mk_datetime 2024 3 15 9 30 0 0)) = Ok "2024-03-11".
Proof.
  split; [reflexivity|].
  apply (week_key_is_monday (mk_datetime 2024 3 15 9 30 0 0)); reflexivity.
Defined.

(** C1. For each of the five granularities and every dataset whose feature
    column is aligned with a timestamp column of datetimes, the records
    emitted for a bucket key have counts that add up to the number of rows
    whose timestamp maps to that key; every count is at least 1 and no
    (bucket, value) pair is emitted twice. *)
Theorem bucket_completeness (bin_size : string) (key_of : pyobj → result string)
    (filtered_data : dataset) (feature : string) (rows col : list pyobj) :
  bucket_key bin_size = Some key_of →
  filtered_data !! "timestamp" = Some rows →
  filtered_data !! feature = Some col →
  length col = length rows →
  forallb is_timestamp rows = true →
  ∃ res, count_by key_of filtered_data feature = Ok res
    ∧ (∀ b, sum_counts (filter (λ r, date r = b) res)
            = Z.of_nat (length (filter (λ ts, key_of ts = Ok b) rows)))
    ∧ Forall (λ r, 1 <= count r) res
    ∧ NoDup ((λ r, (date r, value r)) <$> res).
Proof.
  intros Hb Hrows Hcol Hlen Hts.
  assert (Hkeys : Forall (λ ts, ∃ key, key_of ts = Ok key) rows).
  { apply Forall_forall. intros ts Hin. eapply bucket_key_total; [done|].
    rewrite forallb_forall in Hts. apply Hts. by apply list_elem_of_In. }
  destruct (count_rows_spec key_of filtered_data feature col Hcol rows [] 0%nat)
    as (bins & Hrun & Hgood & Htot); [done|lia|split; constructor|].
  exists (emit bins). unfold count_by, getitem. rewrite Hrows. simpl. rewrite Hrun. simpl.
  split_and!; [done| |by apply emit_Forall|by apply emit_NoDup].
  intros b. rewrite sum_counts_emit by apply Hgood. rewrite Htot. unfold bucket_total. simpl. lia.
Qed.

Lemma bucket_completeness_witness :
  ∃ res, count_by week_key ex_rows "status" = Ok res
    ∧ sum_counts (filter (λ r, date r = "2024-01-01") res) = 2.
Proof.
  destruct (bucket_completeness "1W" week_key ex_rows "status"
              [VDatetime ex_t1; VDatetime ex_t2] [VStr "active"; VStr "failed"]
              eq_refl eq_refl eq_refl eq_refl eq_refl) as (res & Hrun & Hsum & _).
  exists res. split; [exact Hrun|exact (Hsum "2024-01-01")].
Defined.

(** ** Parsing dates and filtering rows *)

Lemma digit_val_digit n : digit_val (digit n) = Some (n mod 10).
Proof.
  unfold digit.
  assert (H : 0 <= n mod 10 < 10) by (apply Z.mod_pos_bound; lia).
  assert (Hc : n mod 10 = 0 ∨ n mod 10 = 1 ∨ n mod 10 = 2 ∨ n mod 10 = 3 ∨ n mod 10 = 4
               ∨ n mod 10 = 5 ∨ n mod 10 = 6 ∨ n mod 10 = 7 ∨ n mod 10 = 8 ∨ n mod 10 = 9)
    by lia.
  destruct Hc as [->|[->|[->|[->|[->|[->|[->|[->|[->| ->]]]]]]]]]; reflexivity.
Qed.

Lemma isoformat_date_chars y m d :
  isoformat_date y m d
  = String (digit (y / 10 / 10 / 10)) (String (digit (y / 10 / 10))
      (String (digit (y / 10)) (String (digit y) (String "-"
        (String (digit (m / 10)) (String (digit m) (String "-"
          (String (digit (d / 10)) (String (digit d) ""))))))))).
Proof. reflexivity. Qed.

Lemma parse_isoformat_date_print y m d :
  0 <= y < 10000 → 0 <= m < 100 → 0 <= d < 100 →
  _parse_isoformat_date (isoformat_date y m d) = Some (y, m, d, "").
Proof.
  intros Hy Hm Hd. rewrite isoformat_date_chars. unfold _parse_isoformat_date. cbn.
  repeat (first [rewrite !digit_val_digit | rewrite (decide_True (P := "-"%char = "-"%char)) by done]; cbn).
  repeat f_equal; zdm.
Qed.

Lemma new_datetime_valid y m d h mi s us :
  valid_date y m d = true → valid_time h mi s us = true →
  new_datetime y m d h mi s us = Ok (mk_datetime y m d h mi s us).
Proof.
  unfold valid_date, valid_time, new_datetime. rewrite !andb_true_iff.
  intros (((((H1 & H2) & H3) & H4) & H5) & H6) (((((((T1 & T2) & T3) & T4) & T5) & T6) & T7) & T8).
  by rewrite H1, H2, H3, H4, H5, H6, T1, T2, T3, T4, T5, T6, T7, T8.
Qed.

Lemma days_in_month_le y m : _days_in_month y m <= 31.
Proof.
  unfold _days_in_month, _DAYS_IN_MONTH. destruct (_ && _); [lia|].
  repeat case_match; lia.
Qed.

Lemma fromisoformat_isoformat_date y m d :
  valid_date y m d = true →
  fromisoformat (isoformat_date y m d) = Ok (mk_datetime y m d 0 0 0 0).
Proof.
  intros Hv. pose proof (valid_date_bounds _ _ _ Hv) as (Hy & Hm & Hd).
  pose proof (days_in_month_le y m).
  unfold fromisoformat. rewrite parse_isoformat_date_print by lia.
  by apply new_datetime_valid.
Qed.

Lemma filter_indices_ok start_dt end_dt ts : ∀ i,
  filter_indices start_dt end_dt i (VDatetime <$> ts)
  = Ok (kept (window_keep start_dt end_dt) i ts).
Proof.
  induction ts as [|t ts IH]; intros i; [done|].
  simpl. rewrite IH. unfold window_keep. simpl. by destruct (_ && _).
Qed.

Lemma kept_filter keep ts i :
  length (kept keep i ts) = length (filter (λ t, keep t = true) ts).
Proof.
  revert i. induction ts as [|t ts IH]; intros i; [done|]. simpl.
  destruct (keep t) eqn:Hk.
  - rewrite filter_cons_True by done. simpl. by rewrite IH.
  - rewrite filter_cons_False by (by rewrite Hk). by rewrite IH.
Qed.

Lemma pick_kept (bar : dataset) column (col : list pyobj) keep ts : ∀ i,
  bar !! column = Some col →
  (i + length ts ≤ length col)%nat →
  pick bar column (kept keep i ts) = Ok (select keep ts (drop i col)).
Proof.
  unfold select. induction ts as [|t ts IH]; intros i Hcol Hlen; [done|].
  simpl in Hlen. destruct (lookup_lt_is_Some_2 col i) as [x Hx]; [lia|].
  rewrite (drop_S _ _ _ Hx). simpl.
  destruct (keep t) eqn:Hk.
  - rewrite filter_cons_True by done. simpl. unfold getitem, index. rewrite Hcol. simpl.
    rewrite Hx. simpl. rewrite IH by (done || lia). done.
  - rewrite filter_cons_False by (by simpl; rewrite Hk). apply IH; [done|lia].
Qed.

Lemma select_timestamps keep ts :
  select keep ts (VDatetime <$> ts) = VDatetime <$> filter (λ t, keep t = true) ts.
Proof.
  unfold select. induction ts as [|t ts IH]; [done|]. csimpl.
  destruct (keep t) eqn:Hk.
  - rewrite !filter_cons_True by done. csimpl. by rewrite IH.
  - rewrite !filter_cons_False by (by simpl; rewrite Hk). done.
Qed.

(** The filter, once both dates parse and the timestamp column holds
    datetimes. *)
Lemma range_filter_run (bar fd : dataset) feature s e start_dt end_dt ts :
  fromisoformat s = Ok start_dt → fromisoformat e = Ok end_dt →
  bar !! "timestamp" = Some (VDatetime <$> ts) →
  let keep := window_keep start_dt (replace_hms end_dt 23 59 59) in
  range_filter bar feature s e fd =
  (values ← pick bar feature (kept keep 0 ts);
   Ok (<[feature := values]>
        (<["timestamp" := VDatetime <$> filter (λ t, keep t = true) ts]> fd))).
Proof.
  intros Hs He Hts keep. unfold range_filter, getitem. rewrite Hs, He, Hts. simpl.
  rewrite filter_indices_ok. simpl. fold keep.
  rewrite (pick_kept bar "timestamp" (VDatetime <$> ts)); [|done|rewrite length_fmap; lia].
  simpl. rewrite drop_0, select_timestamps. done.
Qed.

Lemma zip_filter_fst {A} (keep : datetime → bool) (ts : list datetime) (col : list A) :
  (length ts ≤ length col)%nat →
  (filter (λ p, keep p.1 = true) (zip ts col)).*1 = filter (λ t, keep t = true) ts.
Proof.
  revert col. induction ts as [|t ts IH]; intros col Hlen; [done|].
  destruct col as [|x col]; simpl in Hlen; [lia|]. csimpl.
  destruct (keep t) eqn:Hk.
  - rewrite !filter_cons_True by done. csimpl. rewrite IH by lia. done.
  - rewrite !filter_cons_False by (by simpl; rewrite Hk). apply IH. lia.
Qed.

(** C2. With both dates given as calendar dates [YYYY-MM-DD], the filter
    keeps exactly the rows whose timestamp [t] satisfies
    [start 00:00:00 <= t <= end 23:59:59], in their order. *)
Theorem range_filter_inclusive (bar fd : dataset) (feature : string)
    (sy sm sd ey em ed : Z) (ts : list datetime) (col : list pyobj) :
  valid_date sy sm sd = true →
  valid_date ey em ed = true →
  bar !! "timestamp" = Some (VDatetime <$> ts) →
  bar !! feature = Some col →
  length col = length ts →
  let start_dt := mk_datetime sy sm sd 0 0 0 0 in
  let end_dt := mk_datetime ey em ed 23 59 59 0 in
  ∃ out,
    range_filter bar feature (isoformat_date sy sm sd) (isoformat_date ey em ed) fd = Ok out
    ∧ out !! "timestamp"
      = Some (VDatetime <$>
                filter (λ t, datetime_le start_dt t && datetime_le t end_dt = true) ts)
    ∧ ∀ t, VDatetime t ∈ default [] (out !! "timestamp")
           ↔ t ∈ ts ∧ datetime_le start_dt t = true ∧ datetime_le t end_dt = true.
Proof.
  intros Hs He Hts Hcol Hlen start_dt end_dt.
  pose proof (range_filter_run bar fd feature _ _ _ _ ts
                (fromisoformat_isoformat_date _ _ _ Hs)
                (fromisoformat_isoformat_date _ _ _ He) Hts) as Hrun.
  cbv zeta in Hrun. change (replace_hms _ 23 59 59) with end_dt in Hrun.
  fold start_dt in Hrun.
  rewrite (pick_kept bar feature col) in Hrun by (done || lia). simpl in Hrun.
  rewrite drop_0 in Hrun.
  eexists. split; [exact Hrun|].
  assert (Hout : (<[feature := select (window_keep start_dt end_dt) ts col]>
                   (<["timestamp" := VDatetime <$>
                        filter (λ t, window_keep start_dt end_dt t = true) ts]> fd)
                  : dataset) !! "timestamp"
                 = Some (VDatetime <$>
                     filter (λ t, datetime_le start_dt t && datetime_le t end_dt = true) ts)).
  { destruct (decide (feature = "timestamp")) as [->|Hne].
    - rewrite lookup_insert_eq. rewrite Hts in Hcol. injection Hcol as <-.
      by rewrite select_timestamps.
    - rewrite lookup_insert_ne by done. by rewrite lookup_insert_eq. }
  split; [exact Hout|].
  intros t. rewrite Hout. simpl. rewrite list_elem_of_fmap. split.
  - intros (t' & [= <-] & [Hk Hin]%list_elem_of_filter).
    by apply andb_prop in Hk as [? ?].
  - intros (Hin & H1 & H2). exists t. split; [done|].
    apply list_elem_of_filter. split; [|done]. by rewrite H1, H2.
Qed.

Lemma range_filter_inclusive_witness :
  ∃ out, range_filter ex_rows "status" "2024-01-01" "2024-01-03" ex_rows = Ok out
    ∧ out !! "timestamp" = Some [VDatetime ex_t1; VDatetime ex_t2].
Proof.
  destruct (range_filter_inclusive ex_rows ex_rows "status" 2024 1 1 2024 1 3
              [ex_t1; ex_t2] [VStr "active"; VStr "failed"]
              eq_refl eq_refl eq_refl eq_refl eq_refl) as (out & Hrun & Hout & _).
  exists out. split; [exact Hrun|exact Hout].
Defined.

(** The second row of the example, at 2024-01-03T23:59:59, is dropped when the
    end date is 2024-01-02. *)
Example range_filter_drops_after_end :
  (range_filter ex_rows "status" "2024-01-01" "2024-01-02" ex_rows
     ≫= getitem "timestamp") = Ok [VDatetime ex_t1].
Proof. vm_compute. reflexivity. Qed.

(** C8 as stated fails: the filter narrows two columns only, so a dataset
    with a third column leaves it with columns of different lengths. *)
Lemma filter_output_not_row_aligned :
  row_aligned ex_rows
  ∧ ∃ out, range_filter ex_rows "status" "2024-01-01" "2024-01-02" ex_rows = Ok out
      ∧ ¬ row_aligned out.
Proof.
  split.
  - exists 2%nat. unfold ex_rows.
    repeat apply map_Forall_insert_2; [done..|apply map_Forall_empty].
  - eexists. split; [vm_compute; reflexivity|].
    intros [n Hn].
    pose proof (Hn "timestamp" [VDatetime ex_t1] eq_refl) as H1.
    pose proof (Hn "user" [VStr "alice"; VStr "bob"] eq_refl) as H2.
    simpl in *. congruence.
Qed.

(** C8, amended. In the dataset the filter produces, the timestamp column and
    the feature column are the two projections of the retained rows, in
    their original order; every other column is the one of the input, not
    narrowed. *)
Theorem range_filter_aligned_columns (bar fd : dataset) (feature s e : string)
    (start_dt end_dt : datetime) (ts : list datetime) (col : list pyobj) :
  fromisoformat s = Ok start_dt →
  fromisoformat e = Ok end_dt →
  bar !! "timestamp" = Some (VDatetime <$> ts) →
  bar !! feature = Some col →
  length col = length ts →
  let keep (row : datetime * pyobj) :=
    datetime_le start_dt row.1 && datetime_le row.1 (replace_hms end_dt 23 59 59) = true in
  let rows := filter keep (zip ts col) in
  ∃ out, range_filter bar feature s e fd = Ok out
    ∧ out !! "timestamp" = Some (VDatetime <$> rows.*1)
    ∧ out !! feature = Some rows.*2
    ∧ ∀ k, k ≠ "timestamp" → k ≠ feature → out !! k = fd !! k.
Proof.
  intros Hs He Hts Hcol Hlen keep rows.
  pose proof (range_filter_run bar fd feature _ _ _ _ ts Hs He Hts) as Hrun.
  cbv zeta in Hrun.
  rewrite (pick_kept bar feature col) in Hrun by (done || lia). simpl in Hrun.
  rewrite drop_0 in Hrun.
  set (kp := window_keep start_dt (replace_hms end_dt 23 59 59)) in *.
  assert (Hrows1 : rows.*1 = filter (λ t, kp t = true) ts)
    by (apply (zip_filter_fst kp); lia).
  eexists. split; [exact Hrun|]. split_and!.
  - rewrite Hrows1. destruct (decide (feature = "timestamp")) as [->|Hne].
    + rewrite lookup_insert_eq. rewrite Hts in Hcol. injection Hcol as <-.
      by rewrite select_timestamps.
    + rewrite lookup_insert_ne by done. by rewrite lookup_insert_eq.
  - by rewrite lookup_insert_eq.
  - intros k Hk1 Hk2. by rewrite !lookup_insert_ne.
Qed.

Lemma range_filter_aligned_columns_witness :
  ∃ out, range_filter ex_rows "status" "2024-01-01" "2024-01-02" ex_rows = Ok out
    ∧ out !! "timestamp" = Some [VDatetime ex_t1]
    ∧ out !! "status" = Some [VStr "active"]
    ∧ out !! "user" = Some [VStr "alice"; VStr "bob"].
Proof.
  destruct (range_filter_aligned_columns ex_rows ex_rows "status"
              "2024-01-01" "2024-01-02" _ _ [ex_t1; ex_t2] [VStr "active"; VStr "failed"]
              eq_refl eq_refl eq_refl eq_refl eq_refl) as (out & Hrun & H1 & H2 & H3).
  exists out. split_and!; [exact Hrun|exact H1|exact H2|].
  rewrite H3 by done. reflexivity.
Defined.

(** ** The handler *)

Ltac unfold_m :=
  unfold mbind, mret, M_bind, M_ret, result_bind, result_ret,
    print, now, count_refresh, get_self, put_self, lift, raise in *.

Lemma bind_run {A B} (m : M A) (f : A → M B) w :
  (m ≫= f) w = match m w with (Ok a, w') => f a w' | (Raise e, w') => (Raise e, w') end.
Proof. reflexivity. Qed.

Lemma is_cache_valid_run last w :
  ∃ b w', _is_cache_valid last w = (Ok b, w') ∧ self w' = self w ∧ clock w' = clock w
    ∧ stdout w' = stdout w ∧ refreshes w' = refreshes w ∧ (ticks w ≤ ticks w')%nat.
Proof.
  destruct last as [t|]; simpl; unfold_m; simpl.
  all: do 2 eexists; repeat split; simpl; lia.
Qed.

Lemma bar_snapshot_ok (test bar : dataset) w :
  ∃ fd w', bar_snapshot test bar w = (Ok fd, w').
Proof.
  unfold bar_snapshot. rewrite bind_run. simpl. rewrite bind_run.
  destruct (is_cache_valid_run (bar_last_load_time (self w)) w) as (b & w1 & -> & _).
  destruct (b && truthy_dict (bar_data (self w))).
  - destruct (bar_last_load_time (self w)); unfold_m; simpl; do 2 eexists; reflexivity.
  - unfold _update_cache; unfold_m; simpl.
    destruct (bool_decide (bar = ∅)); do 2 eexists; reflexivity.
Qed.

Lemma bar_snapshot_run (test bar : dataset) w :
  cache_inv bar (self w) →
  ∃ w', bar_snapshot test bar w = (Ok bar, w') ∧ bar_data (self w') = Some bar.
Proof.
  intros Hinv. unfold bar_snapshot. rewrite bind_run. simpl. rewrite bind_run.
  destruct (is_cache_valid_run (bar_last_load_time (self w)) w) as (b & w1 & -> & Hs & _).
  destruct (b && truthy_dict (bar_data (self w))) eqn:Hb.
  - apply andb_prop in Hb as [-> Ht].
    destruct Hinv as [Hn | Hs']; rewrite ?Hn, ?Hs' in *; [done|].
    destruct (bar_last_load_time (self w)); unfold_m; simpl;
      (eexists; split; [reflexivity | simpl; congruence]).
  - unfold _update_cache; unfold_m; simpl.
    destruct (bool_decide (bar = ∅)); eexists; split; reflexivity.
Qed.

Lemma bar_filtered_run feature s e fd w :
  bar_filtered feature s e fd w =
  (if truthy_str s && truthy_str e && truthy_dict (bar_data (self w)) then
     range_filter (default ∅ (bar_data (self w))) feature (default "" s) (default "" e) fd
   else Ok fd, w).
Proof.
  unfold bar_filtered. unfold_m. simpl. by destruct (_ && _).
Qed.

Lemma get_bar_data_unfold test bar depth feature s e bin w :
  get_bar_data test bar (S depth) feature s e bin w =
  match bar_snapshot test bar w with
  | (Ok fd, w1) =>
    match bar_filtered feature s e fd w1 with
    | (Ok fd', w2) =>
      match bucket_key bin with
      | Some key_of => (count_by key_of fd' feature, w2)
      | None => get_bar_data test bar depth feature s e "1D" w2
      end
    | (Raise ex, w2) => (Raise ex, w2)
    end
  | (Raise ex, w1) => (Raise ex, w1)
  end.
Proof.
  simpl. rewrite bind_run. destruct (bar_snapshot test bar w) as [[fd|ex] w1]; [|done].
  rewrite bind_run. destruct (bar_filtered feature s e fd w1) as [[fd'|ex] w2]; [|done].
  by destruct (bucket_key bin).
Qed.

Lemma get_bar_data_output test bar depth feature s e bin w :
  cache_inv bar (self w) →
  (2 ≤ depth)%nat ∨ ((1 ≤ depth)%nat ∧ bucket_key bin ≠ None) →
  fst (get_bar_data test bar depth feature s e bin w) = bar_output bar feature s e bin.
Proof.
  intros Hinv Hd.
  assert (Hone : ∀ d bin' k w, cache_inv bar (self w) → bucket_key bin' = Some k →
            fst (get_bar_data test bar (S d) feature s e bin' w) = bar_output bar feature s e bin').
  { clear. intros d bin' k w Hinv Hk. rewrite get_bar_data_unfold.
    destruct (bar_snapshot_run test bar w Hinv) as (w1 & -> & Hb).
    rewrite bar_filtered_run, Hb. unfold bar_output, filtered_of. simpl default.
    rewrite Hk. simpl.
    by destruct (if _ && _ && _ then _ else _) as [fd|ex]. }
  destruct (bucket_key bin) as [k|] eqn:Hk.
  - destruct depth as [|d]; [lia|]. by eapply Hone.
  - destruct depth as [|[|d]]; [lia|destruct Hd as [?|[_ ?]]; [lia|done]|].
    rewrite get_bar_data_unfold.
    destruct (bar_snapshot_run test bar w Hinv) as (w1 & -> & Hb).
    rewrite bar_filtered_run, Hb. unfold bar_output at 1. unfold filtered_of. simpl default.
    rewrite Hk. simpl default.
    destruct (if _ && _ && _ then _ else _) as [fd|ex] eqn:Hf; [|done].
    rewrite (Hone d "1D" day_key w1); [|right; done|done].
    unfold bar_output, filtered_of. simpl default. rewrite Hf. done.
Qed.

(** *** Exceptions that cannot be a [RecursionError] *)

Lemma not_recursion_bind {A B} (m : result A) (f : A → result B) :
  not_recursion m → (∀ a, not_recursion (f a)) → not_recursion (m ≫= f).
Proof.
  intros Hm Hf. destruct m as [a|ex]; [apply Hf|].
  intros [= ->]. by apply Hm.
Qed.

Lemma new_datetime_raises y m d h mi s us ex :
  new_datetime y m d h mi s us = Raise ex → ∃ msg, ex = ValueError msg.
Proof. unfold new_datetime. repeat case_match; intros [= <-]; eauto. Qed.

Lemma fromisoformat_raises s ex :
  fromisoformat s = Raise ex → ∃ msg, ex = ValueError msg.
Proof.
  unfold fromisoformat. repeat case_match; subst;
    try (intros [= <-]; eauto); apply new_datetime_raises.
Qed.

Lemma fromisoformat_not_recursion s : not_recursion (fromisoformat s).
Proof. intros H. by destruct (fromisoformat_raises _ _ H). Qed.

Lemma getitem_not_recursion k (d : dataset) : not_recursion (getitem k d).
Proof. unfold getitem. by destruct (d !! k). Qed.

Lemma index_not_recursion {A} (l : list A) i : not_recursion (index l i).
Proof. unfold index. by destruct (l !! i). Qed.

Lemma filter_indices_not_recursion sd ed rows : ∀ i,
  not_recursion (filter_indices sd ed i rows).
Proof.
  induction rows as [|ts rows IH]; intros i; [done|]. simpl.
  apply not_recursion_bind; [by destruct ts|]. intros keep.
  apply not_recursion_bind; [apply IH|done].
Qed.

Lemma pick_not_recursion (bar : dataset) c idxs : not_recursion (pick bar c idxs).
Proof.
  induction idxs as [|i idxs IH]; [done|]. simpl.
  apply not_recursion_bind; [apply getitem_not_recursion|]. intros col.
  apply not_recursion_bind; [apply index_not_recursion|]. intros x.
  apply not_recursion_bind; [apply IH|done].
Qed.

Lemma range_filter_not_recursion bar feature s e fd :
  not_recursion (range_filter bar feature s e fd).
Proof.
  unfold range_filter.
  apply not_recursion_bind; [apply fromisoformat_not_recursion|]. intros sd.
  apply not_recursion_bind; [apply fromisoformat_not_recursion|]. intros ed.
  apply not_recursion_bind; [apply getitem_not_recursion|]. intros rows.
  apply not_recursion_bind; [apply filter_indices_not_recursion|]. intros idxs.
  apply not_recursion_bind; [apply pick_not_recursion|]. intros tss.
  apply not_recursion_bind; [apply pick_not_recursion|done].
Qed.

Lemma bucket_key_not_recursion bin key_of ts :
  bucket_key bin = Some key_of → not_recursion (key_of ts).
Proof.
  unfold bucket_key. repeat case_match; intros [= <-];
    destruct ts as [| |t]; try done.
  unfold week_key, datetime_sub_days. simpl. repeat case_match; done.
Qed.

Lemma count_by_not_recursion bin key_of fd feature :
  bucket_key bin = Some key_of → not_recursion (count_by key_of fd feature).
Proof.
  intros Hk. unfold count_by.
  apply not_recursion_bind; [apply getitem_not_recursion|]. intros rows.
  apply not_recursion_bind; [|done].
  generalize (@nil (string * list (pyobj * Z))) 0%nat.
  induction rows as [|ts rows IH]; intros bins i; [done|]. simpl.
  apply not_recursion_bind; [|auto]. unfold count_row.
  apply not_recursion_bind; [by eapply bucket_key_not_recursion|]. intros key.
  apply not_recursion_bind; [apply getitem_not_recursion|]. intros col.
  apply not_recursion_bind; [apply index_not_recursion|done].
Qed.

(** C3. A slot with no load time is not fresh; a slot loaded at [T] is fresh
    at clock reading [t] exactly when [t - T] is less than the TTL, and not
    fresh exactly when [t - T] is at least the TTL ([t - T] in microseconds,
    the TTL in seconds). *)
Theorem freshness_boundary (w : world) (T : datetime) :
  let t := clock w (ticks w) in
  let ttl := cache_duration (self w) in
  fst (_is_cache_valid None w) = Ok false
  ∧ (fst (_is_cache_valid (Some T) w) = Ok true ↔ datetime_sub t T < ttl * 1000000)
  ∧ (fst (_is_cache_valid (Some T) w) = Ok false ↔ datetime_sub t T >= ttl * 1000000).
Proof.
  simpl. unfold_m. simpl. unfold total_seconds_lt. split_and!; [done| |].
  - destruct (Z.ltb_spec (datetime_sub (clock w (ticks w)) T)
                (cache_duration (self w) * 1000000)); split; (done || lia).
  - destruct (Z.ltb_spec (datetime_sub (clock w (ticks w)) T)
                (cache_duration (self w) * 1000000)); split; (done || lia).
Qed.

Lemma bar_filtered_no_recursion feature s e fd w w' :
  bar_filtered feature s e fd w ≠ (Raise RecursionError, w').
Proof.
  rewrite bar_filtered_run. intros [= H _]. revert H.
  destruct (_ && _ && _); [apply range_filter_not_recursion|done].
Qed.

Lemma get_bar_data_depth (test bar : dataset) (depth : nat) (feature : string)
    (s e : option string) (bin : string) (w : world) :
  (2 ≤ depth)%nat →
  fst (get_bar_data test bar depth feature s e bin w) ≠ Raise RecursionError
  ∧ get_bar_data test bar depth feature s e bin w
    = get_bar_data test bar 2 feature s e bin w.
Proof.
  intros Hd.
  assert (Hone : ∀ d bin' k w', bucket_key bin' = Some k →
            fst (get_bar_data test bar (S d) feature s e bin' w') ≠ Raise RecursionError).
  { intros d bin' k w' Hk. rewrite get_bar_data_unfold.
    destruct (bar_snapshot_ok test bar w') as (fd & w1 & ->).
    destruct (bar_filtered feature s e fd w1) as [[fd'|ex] w2] eqn:Hf;
      [|simpl; intros [= ->]; by eapply bar_filtered_no_recursion].
    rewrite Hk. simpl. by eapply count_by_not_recursion. }
  destruct depth as [|[|d]]; [lia..|]. split.
  - destruct (bucket_key bin) as [k|] eqn:Hk; [by eapply Hone|].
    rewrite get_bar_data_unfold.
    destruct (bar_snapshot_ok test bar w) as (fd & w1 & ->).
    destruct (bar_filtered feature s e fd w1) as [[fd'|ex] w2] eqn:Hf;
      [|simpl; intros [= ->]; by eapply bar_filtered_no_recursion].
    rewrite Hk. by eapply (Hone d "1D" day_key).
  - rewrite !(get_bar_data_unfold _ _ (S _)).
    destruct (bar_snapshot test bar w) as [[fd|ex] w1]; [|done].
    destruct (bar_filtered feature s e fd w1) as [[fd'|ex] w2]; [|done].
    destruct (bucket_key bin); [done|].
    rewrite !get_bar_data_unfold.
    destruct (bar_snapshot test bar w2) as [[fd2|ex] w3]; [|done].
    destruct (bar_filtered feature s e fd2 w3) as [[fd3|ex] w4]; done.
Qed.

Lemma freshness_boundary_witness :
  fst (_is_cache_valid (Some (mk_datetime 2024 6 1 11 50 0 1)) ex_world) = Ok true
  ∧ fst (_is_cache_valid (Some (mk_datetime 2024 6 1 11 50 0 0)) ex_world) = Ok false.
Proof.
  split.
  - apply (freshness_boundary ex_world (mk_datetime 2024 6 1 11 50 0 1)). reflexivity.
  - apply (freshness_boundary ex_world (mk_datetime 2024 6 1 11 50 0 0)). done.
Defined.

(** C10. [get_bar_data] returns within two frames for every request: it
    never runs out of frames once it has two, more frames change nothing,
    an unrecognised bin size makes exactly one nested call, with ["1D"], and
    that call makes none. *)
Theorem get_bar_data_terminates (test bar : dataset) (depth : nat) (feature : string)
    (s e : option string) (bin : string) (w : world) :
  (2 ≤ depth)%nat →
  fst (get_bar_data test bar depth feature s e bin w) ≠ Raise RecursionError
  ∧ get_bar_data test bar depth feature s e bin w
    = get_bar_data test bar 2 feature s e bin w
  ∧ (bucket_key bin = None →
     get_bar_data test bar depth feature s e bin w
     = (filtered_data ← bar_snapshot test bar;
        filtered_data ← bar_filtered feature s e filtered_data;
        get_bar_data test bar 1 feature s e "1D") w)
  ∧ ∀ w', fst (get_bar_data test bar 1 feature s e "1D" w') ≠ Raise RecursionError.
Proof.
  intros Hd. destruct (get_bar_data_depth test bar depth feature s e bin w Hd) as [H1 H2].
  split_and!; [done|done| |].
  - intros Hk. rewrite H2. rewrite !bind_run. rewrite get_bar_data_unfold.
    destruct (bar_snapshot test bar w) as [[fd|ex] w1]; [|done].
    rewrite bind_run.
    destruct (bar_filtered feature s e fd w1) as [[fd'|ex] w2]; [|done].
    by rewrite Hk.
  - intros w'. rewrite get_bar_data_unfold.
    destruct (bar_snapshot_ok test bar w') as (fd & w1 & ->).
    destruct (bar_filtered feature s e fd w1) as [[fd'|ex] w2] eqn:Hf;
      [|simpl; intros [= ->]; by eapply bar_filtered_no_recursion].
    simpl. by eapply (count_by_not_recursion "1D").
Qed.

Lemma get_bar_data_terminates_witness :
  fst (get_bar_data ∅ ex_rows 5 "status" None None "2D" ex_world) ≠ Raise RecursionError.
Proof.
  apply (get_bar_data_terminates ∅ ex_rows 5 "status" None None "2D" ex_world). lia.
Defined.

(** The invariant holds at start and every method keeps it. *)
Lemma cache_inv_init bar : cache_inv bar __init__.
Proof. by left. Qed.

Lemma cache_inv_update_cache test bar data_type w :
  cache_inv bar (self w) → cache_inv bar (self (snd (_update_cache test bar data_type w))).
Proof.
  intros Hinv. unfold _update_cache. repeat case_match; unfold_m; simpl; [done| |done].
  by right.
Qed.

Lemma cache_inv_clear_cache bar w : cache_inv bar (self (snd (clear_cache w))).
Proof. by left. Qed.

Lemma cache_inv_get_data test bar query w :
  cache_inv bar (self w) → cache_inv bar (self (snd (get_data test bar query w))).
Proof.
  intros Hinv. unfold get_data. rewrite bind_run. simpl. rewrite bind_run.
  destruct (is_cache_valid_run (last_load_time (self w)) w) as (b & w1 & -> & Hs & _).
  destruct b.
  - destruct (last_load_time (self w)); unfold_m; simpl; by rewrite Hs.
  - unfold _update_cache; unfold_m; simpl. by rewrite Hs.
Qed.

Lemma bar_snapshot_inv test bar w :
  cache_inv bar (self w) → cache_inv bar (self (snd (bar_snapshot test bar w))).
Proof.
  intros Hinv. destruct (bar_snapshot_run test bar w Hinv) as (w' & -> & Hb). by right.
Qed.

Lemma cache_inv_get_bar_data test bar depth feature s e bin w :
  cache_inv bar (self w) →
  cache_inv bar (self (snd (get_bar_data test bar depth feature s e bin w))).
Proof.
  revert bin w. induction depth as [|d IH]; intros bin w Hinv; [done|].
  rewrite get_bar_data_unfold.
  pose proof (bar_snapshot_inv test bar w Hinv) as H1.
  destruct (bar_snapshot test bar w) as [[fd|ex] w1]; [|done]. simpl in H1.
  rewrite bar_filtered_run.
  destruct (if _ && _ && _ then _ else _) as [fd'|ex]; [|done].
  destruct (bucket_key bin); [done|]. by apply IH.
Qed.

Lemma get_cache_status_frame w :
  ∃ st w', get_cache_status w = (Ok st, w')
    ∧ self w' = self w ∧ refreshes w' = refreshes w
    ∧ stdout w' = stdout w ∧ clock w' = clock w.
Proof.
  unfold get_cache_status, slot_report.
  destruct w as [[d bd [T1|] [T2|] ttl] clk k out r]; unfold_m; simpl;
    do 2 eexists; (split; [reflexivity|]); done.
Qed.

Lemma reachable_cache_inv test bar w : reachable test bar w → cache_inv bar (self w).
Proof.
  induction 1 as [clk k out r|query w _ IH|depth feature s e bin w _ IH|w _ IH|w _ IH].
  - apply cache_inv_init.
  - by apply cache_inv_get_data.
  - by apply cache_inv_get_bar_data.
  - apply cache_inv_clear_cache.
  - destruct (get_cache_status_frame w) as (st & w' & Hrun & Hs & _).
    rewrite Hrun. simpl. by rewrite Hs.
Qed.

(** C6. For a bin size outside the five tags, [get_bar_data] returns what
    the same request returns with ["1D"], value or exception alike, whatever
    the states of the cache and the clock readings of the two calls; the
    fallback itself raises nothing. *)
Theorem unknown_bin_size_is_daily (test bar : dataset) (depth depth' : nat)
    (feature : string) (s e : option string) (bin : string) (w w' : world) :
  bucket_key bin = None →
  reachable test bar w → reachable test bar w' →
  (2 ≤ depth)%nat → (1 ≤ depth')%nat →
  fst (get_bar_data test bar depth feature s e bin w)
  = fst (get_bar_data test bar depth' feature s e "1D" w')
  ∧ fst (get_bar_data test bar depth feature s e bin w) ≠ Raise RecursionError.
Proof.
  intros Hk Hw%reachable_cache_inv Hw'%reachable_cache_inv Hd Hd'. split.
  - rewrite (get_bar_data_output test bar depth); [|done|by left].
    rewrite (get_bar_data_output test bar depth'); [|done|by right].
    unfold bar_output. by rewrite Hk.
  - by apply get_bar_data_depth.
Qed.

Lemma unknown_bin_size_is_daily_witness :
  fst (get_bar_data ∅ ex_rows 2 "status" (Some "2024-01-01") (Some "2024-01-03") "2D"
         ex_world)
  = fst (get_bar_data ∅ ex_rows 1 "status" (Some "2024-01-01") (Some "2024-01-03") "1D"
           ex_world).
Proof.
  apply (unknown_bin_size_is_daily ∅ ex_rows 2 1 "status" _ _ "2D" ex_world ex_world);
    [reflexivity|apply reach_init|apply reach_init|lia|lia].
Defined.

(** C9. [get_cache_status] returns the freshness, last load time and age of
    both slots and leaves the handler, the refresh counter and the output as
    they were: it only reads the clock. *)
Theorem get_cache_status_pure_read (w : world) :
  ∃ st w', get_cache_status w = (Ok st, w')
    ∧ self w' = self w
    ∧ refreshes w' = refreshes w
    ∧ stdout w' = stdout w
    ∧ clock w' = clock w
    ∧ last_load (line_cache st)
      = (λ t, strftime t "%Y-%m-%d %H:%M:%S") <$> last_load_time (self w)
    ∧ last_load (bar_cache st)
      = (λ t, strftime t "%Y-%m-%d %H:%M:%S") <$> bar_last_load_time (self w)
    ∧ valid (line_cache st)
      = from_option
          (λ T, total_seconds_lt (datetime_sub (clock w (ticks w)) T)
                  (cache_duration (self w)))
          false (last_load_time (self w))
    ∧ valid (bar_cache st)
      = from_option
          (λ T, total_seconds_lt
                  (datetime_sub
                     (clock w (ticks w + if last_load_time (self w) is Some _ then 1 else 0)%nat)
                     T)
                  (cache_duration (self w)))
          false (bar_last_load_time (self w))
    ∧ (is_Some (age_minutes (line_cache st)) ↔ is_Some (last_load_time (self w)))
    ∧ (is_Some (age_minutes (bar_cache st)) ↔ is_Some (bar_last_load_time (self w)))
    ∧ cache_duration_minutes st = Qmake (cache_duration (self w)) 60.
Proof.
  unfold get_cache_status, slot_report.
  destruct w as [[d bd [T1|] [T2|] ttl] clk k out r]; unfold_m; simpl;
    rewrite ?Nat.add_0_r, ?Nat.add_1_r;
    do 2 eexists; (split; [reflexivity|]); simpl;
    split_and!; try done; try (split; intros [? ?]; done || eauto).
Qed.

Lemma get_cache_status_pure_read_witness :
  ∃ st w', get_cache_status (get_bar_data ∅ ex_rows 2 "status" None None "1D" ex_world).2
           = (Ok st, w')
    ∧ bar_data (self w') = Some ex_rows
    ∧ refreshes w' = 1%nat
    ∧ valid (bar_cache st) = true
    ∧ last_load (bar_cache st) = Some "2024-06-01 12:00:00"
    ∧ valid (line_cache st) = false.
Proof.
  destruct (get_cache_status_pure_read
              (get_bar_data ∅ ex_rows 2 "status" None None "1D" ex_world).2)
    as (st & w' & Hrun & Hself & Href & _ & _ & Hline & Hbar & Hvl & Hvb & _).
  exists st, w'. split; [exact Hrun|].
  rewrite Hself, Href, Hvb, Hbar, Hvl. split_and!; reflexivity.
Defined.

Lemma truthy_dict_lookup (d : dataset) k col :
  d !! k = Some col → truthy_dict (Some d) = true.
Proof.
  intros Hk. simpl. apply negb_true_iff, bool_decide_eq_false.
  intros ->. by rewrite lookup_empty in Hk.
Qed.

Lemma kept_nil keep ts i :
  filter (λ t, keep t = true) ts = [] → kept keep i ts = [].
Proof.
  intros Hf. apply nil_length_inv. by rewrite (kept_filter keep ts i), Hf.
Qed.

Lemma kept_cons keep ts i :
  filter (λ t, keep t = true) ts ≠ [] → ∃ j idxs, kept keep i ts = j :: idxs.
Proof.
  intros Hf. destruct (kept keep i ts) as [|j idxs] eqn:Hk; [|eauto].
  exfalso. apply Hf, nil_length_inv. by rewrite <- (kept_filter keep ts i), Hk.
Qed.

Lemma count_by_no_rows key_of (fd : dataset) feature :
  fd !! "timestamp" = Some [] → count_by key_of fd feature = Ok [].
Proof. intros H. unfold count_by, getitem. by rewrite H. Qed.

Lemma count_by_missing_feature key_of (fd : dataset) feature ts rows :
  fd !! "timestamp" = Some (ts :: rows) →
  (∃ key, key_of ts = Ok key) →
  fd !! feature = None →
  count_by key_of fd feature = Raise (KeyError feature).
Proof.
  intros Hrows [key Hkey] Hf. unfold count_by, getitem. rewrite Hrows. simpl.
  unfold count_row, getitem. rewrite Hkey, Hf. reflexivity.
Qed.

Lemma day_key_total ts : is_timestamp ts = true → ∃ key, day_key ts = Ok key.
Proof. by apply (bucket_key_total "1D"). Qed.

Lemma default_key_total bin ts :
  is_timestamp ts = true → ∃ key, default day_key (bucket_key bin) ts = Ok key.
Proof.
  intros Hts. destruct (bucket_key bin) as [k|] eqn:Hk; simpl.
  - by eapply bucket_key_total.
  - by apply day_key_total.
Qed.

(** C4 as stated fails: the feature is looked up once per retained row, so a
    request for a column that does not exist returns the empty list when the
    date window retains no row. *)
Lemma unknown_feature_empty_result :
  ex_rows !! "priority" = None
  ∧ fst (get_bar_data ∅ ex_rows 2 "priority" (Some "2023-01-01") (Some "2023-01-02")
           "1D" ex_world) = Ok [].
Proof. split; vm_compute; reflexivity. Qed.

(** C4, amended. On a dataset with a timestamp column of datetimes, when the
    date window retains no row the result is the empty list, whether or not
    the feature is a column; when it retains a row and the feature is not a
    column, the request fails with [KeyError] on the feature name. *)
Theorem unknown_feature_raises_when_rows_remain (test bar : dataset) (depth : nat)
    (feature : string) (s e : option string) (bin : string) (w : world)
    (ts retained : list datetime) :
  reachable test bar w →
  (2 ≤ depth)%nat →
  bar !! "timestamp" = Some (VDatetime <$> ts) →
  forallb valid_datetime ts = true →
  retained_rows s e ts = Ok retained →
  (retained = [] → fst (get_bar_data test bar depth feature s e bin w) = Ok [])
  ∧ (retained ≠ [] → bar !! feature = None →
     fst (get_bar_data test bar depth feature s e bin w) = Raise (KeyError feature)).
Proof.
  intros Hinv%reachable_cache_inv Hd Hts Hvalid Hret.
  rewrite get_bar_data_output by (done || by left).
  unfold bar_output, filtered_of, retained_rows in *.
  rewrite (truthy_dict_lookup _ _ _ Hts), andb_true_r.
  destruct (truthy_str s && truthy_str e).
  - destruct (fromisoformat (default "" s)) as [sd|] eqn:Hs; [|done].
    destruct (fromisoformat (default "" e)) as [ed|] eqn:He; [|done].
    simpl in Hret. injection Hret as <-.
    rewrite (range_filter_run bar bar feature _ _ sd ed ts Hs He Hts). cbv zeta.
    set (keep := window_keep sd (replace_hms ed 23 59 59)). split.
    + intros Hnil. rewrite (kept_nil keep ts 0 Hnil). simpl.
      apply count_by_no_rows. rewrite Hnil.
      destruct (decide (feature = "timestamp")) as [->|Hne].
      * by rewrite lookup_insert_eq.
      * rewrite lookup_insert_ne by done. by rewrite lookup_insert_eq.
    + intros Hne Hf. destruct (kept_cons keep ts 0 Hne) as (j & idxs & ->).
      simpl. unfold getitem. by rewrite Hf.
  - simpl in *. injection Hret as <-. split.
    + intros ->. by apply count_by_no_rows.
    + intros Hne Hf. destruct ts as [|t ts]; [done|].
      eapply count_by_missing_feature; [exact Hts| |done].
      apply default_key_total. simpl in *. by apply andb_prop in Hvalid as [-> _].
Qed.

Lemma unknown_feature_raises_when_rows_remain_witness :
  fst (get_bar_data ∅ ex_rows 2 "priority" (Some "2024-01-01") (Some "2024-01-02")
         "1W" ex_world) = Raise (KeyError "priority")
  ∧ fst (get_bar_data ∅ ex_rows 2 "priority" (Some "2023-01-01") (Some "2023-01-02")
         "1W" ex_world) = Ok [].
Proof.
  split.
  - apply (unknown_feature_raises_when_rows_remain ∅ ex_rows 2 "priority"
             (Some "2024-01-01") (Some "2024-01-02") "1W" ex_world
             [ex_t1; ex_t2] [ex_t1]);
      [apply reach_init|lia|reflexivity|reflexivity|reflexivity|done|reflexivity].
  - apply (unknown_feature_raises_when_rows_remain ∅ ex_rows 2 "priority"
             (Some "2023-01-01") (Some "2023-01-02") "1W" ex_world
             [ex_t1; ex_t2] []);
      [apply reach_init|lia|reflexivity|reflexivity|reflexivity|reflexivity].
Defined.








(** ** More on the counting loop *)

Lemma pair_count_bump b v key v' bins :
  pair_count b v (bump key v' bins)
  = pair_count b v bins + (if decide (b = key ∧ v = v') then 1 else 0).
Proof.
  unfold bump, pair_count. cbv zeta.
  set (bins1 := if dict_get key bins is None then dict_set key [] bins else bins).
  assert (Hb1 : ∀ b, default [] (dict_get b bins1) = default [] (dict_get b bins)).
  { intros b'. subst bins1. destruct (dict_get key bins) eqn:Hg; [done|].
    destruct (decide (key = b')) as [->|Hne].
    - by rewrite dict_get_set_eq, Hg.
    - by rewrite dict_get_set_ne. }
  clearbody bins1. destruct (decide (b = key)) as [->|Hne].
  - rewrite dict_get_set_eq. simpl. rewrite Hb1.
    destruct (decide (v = v')) as [->|Hv].
    + rewrite dict_get_set_eq, decide_True by done. done.
    + rewrite dict_get_set_ne by done. rewrite decide_False by (by intros [_ ?]). lia.
  - rewrite dict_get_set_ne by done. rewrite Hb1, decide_False by (by intros [? _]). lia.
Qed.

Lemma dict_get_elem {K V} `{EqDecision K} (k : K) (v : V) d :
  NoDup d.*1 → (k, v) ∈ d → dict_get k d = Some v.
Proof.
  induction d as [|[k0 v0] d IH]; csimpl; [by intros _ ?%elem_of_nil|].
  intros [Hk Hn]%NoDup_cons [Heq|Hin]%elem_of_cons.
  - injection Heq as -> ->. by rewrite decide_True.
  - rewrite decide_False; [by apply IH|].
    intros ->. apply Hk. apply list_elem_of_fmap. by exists (k0, v).
Qed.

Lemma elem_of_emit b v c bins :
  good_bins bins →
  mk_bar_record b v c ∈ emit bins
  ↔ ∃ counts, dict_get b bins = Some counts ∧ dict_get v counts = Some c.
Proof.
  intros [Hn Hall]. unfold emit. rewrite list_elem_of_In, in_flat_map. split.
  - intros ([key counts] & Hin%list_elem_of_In & Hr%list_elem_of_In).
    apply list_elem_of_fmap in Hr as ([v' c'] & [= -> -> ->] & Hvc).
    exists counts. split; [by apply dict_get_elem|].
    rewrite Forall_forall in Hall. destruct (Hall _ Hin) as [Hcn _].
    by apply dict_get_elem.
  - intros (counts & Hb%dict_get_Some_elem & Hv%dict_get_Some_elem).
    exists (b, counts). split; [by apply list_elem_of_In|].
    apply list_elem_of_In, list_elem_of_fmap. by exists (v, c).
Qed.

Lemma count_rows_fold (key_of : pyobj → result string) (fd : dataset) feature col rows
    keys : ∀ bins i,
  fd !! feature = Some col →
  Forall2 (λ ts k, key_of ts = Ok k) rows keys →
  (i + length rows ≤ length col)%nat →
  count_rows key_of fd feature bins i rows = Ok (bump_all bins (zip keys (drop i col))).
Proof.
  intros bins i Hcol Hkeys. revert bins i.
  induction Hkeys as [|ts k rows keys Hk Hkeys IH]; intros bins i Hlen; [done|].
  simpl in Hlen. destruct (lookup_lt_is_Some_2 col i) as [v Hv]; [lia|].
  rewrite (drop_S _ _ _ Hv). simpl.
  rewrite (count_row_ok key_of fd feature col Hcol bins i ts k v Hk Hv). simpl.
  apply IH. lia.
Qed.

Lemma keys_exist (key_of : pyobj → result string) rows :
  Forall (λ ts, ∃ key, key_of ts = Ok key) rows →
  ∃ keys, Forall2 (λ ts k, key_of ts = Ok k) rows keys.
Proof.
  induction 1 as [|ts rows [k Hk] _ [keys IH]]; [by exists []|].
  exists (k :: keys). by constructor.
Qed.

Lemma good_bump_all kvs : ∀ bins, good_bins bins → good_bins (bump_all bins kvs).
Proof.
  induction kvs as [|[k v] kvs IH]; intros bins Hg; [done|].
  simpl. apply IH. by apply good_bump.
Qed.

Lemma pair_count_bump_all b v kvs : ∀ bins,
  pair_count b v (bump_all bins kvs)
  = pair_count b v bins + Z.of_nat (length (filter (λ kv, kv.1 = b ∧ kv.2 = v) kvs)).
Proof.
  induction kvs as [|[k v'] kvs IH]; intros bins; simpl; [lia|].
  rewrite IH, pair_count_bump.
  destruct (decide (b = k ∧ v = v')) as [[-> ->]|Hne].
  - rewrite filter_cons_True by done. simpl. lia.
  - rewrite filter_cons_False by (simpl; intros [-> ->]; by apply Hne). lia.
Qed.

Lemma total_all_set key counts bins :
  total_all (dict_set key counts bins)
  = total_all bins - counts_total (default [] (dict_get key bins)) + counts_total counts.
Proof.
  induction bins as [|[k0 c0] bins IH]; simpl; [lia|].
  destruct (decide (key = k0)); simpl; lia.
Qed.

Lemma total_all_bump key v bins : total_all (bump key v bins) = total_all bins + 1.
Proof.
  unfold bump. cbv zeta.
  set (bins1 := if dict_get key bins is None then dict_set key [] bins else bins).
  assert (H1 : total_all bins1 = total_all bins).
  { subst bins1. destruct (dict_get key bins) eqn:Hg; [done|].
    rewrite total_all_set, Hg. simpl. lia. }
  rewrite total_all_set, counts_total_set. lia.
Qed.

Lemma total_all_bump_all kvs : ∀ bins,
  total_all (bump_all bins kvs) = total_all bins + Z.of_nat (length kvs).
Proof.
  induction kvs as [|[k v] kvs IH]; intros bins; simpl; [lia|].
  rewrite IH, total_all_bump. lia.
Qed.

Lemma sum_counts_emit_all bins : sum_counts (emit bins) = total_all bins.
Proof.
  induction bins as [|[key counts] bins IH]; [done|].
  rewrite emit_cons, sum_counts_app, sum_counts_emit_counts, IH. done.
Qed.

Lemma zip_keys_filter (key_of : pyobj → result string) b v rows keys :
  ∀ col : list pyobj,
  Forall2 (λ ts k, key_of ts = Ok k) rows keys →
  length (filter (λ kv, kv.1 = b ∧ kv.2 = v) (zip keys col))
  = length (rows_with key_of b v rows col).
Proof.
  unfold rows_with. intros col Hkeys. revert col.
  induction Hkeys as [|ts k rows keys Hk Hkeys IH]; intros col; [done|].
  destruct col as [|x col]; [done|]. csimpl.
  destruct (decide (k = b ∧ x = v)) as [[-> ->]|Hne].
  - rewrite !filter_cons_True by done. simpl. by rewrite IH.
  - rewrite !filter_cons_False; [apply IH|..].
    + simpl. rewrite Hk. intros [[= ->] ->]. by apply Hne.
    + done.
Qed.

Lemma count_by_run bin key_of (fd : dataset) feature rows col :
  bucket_key bin = Some key_of →
  fd !! "timestamp" = Some rows →
  fd !! feature = Some col →
  length col = length rows →
  forallb is_timestamp rows = true →
  ∃ keys, Forall2 (λ ts k, key_of ts = Ok k) rows keys
    ∧ count_by key_of fd feature = Ok (emit (bump_all [] (zip keys col))).
Proof.
  intros Hb Hrows Hcol Hlen Hts.
  assert (Hkeys : Forall (λ ts, ∃ key, key_of ts = Ok key) rows).
  { apply Forall_forall. intros ts Hin. eapply bucket_key_total; [done|].
    rewrite forallb_forall in Hts. apply Hts. by apply list_elem_of_In. }
  destruct (keys_exist _ _ Hkeys) as [keys Hk]. exists keys. split; [done|].
  unfold count_by, getitem. rewrite Hrows. simpl.
  rewrite (count_rows_fold key_of fd feature col rows keys [] 0%nat Hcol Hk) by lia.
  by rewrite drop_0.
Qed.

Lemma good_bins_nil : good_bins [].
Proof. split; constructor. Qed.

(** X1. For each of the five granularities and every dataset whose feature
    column is aligned with a timestamp column of datetimes, a record
    (bucket, value, count) is emitted exactly when some row has that bucket
    key and that value, and its count is the number of those rows. *)
Theorem record_counts_rows_of_pair (bin_size : string) (key_of : pyobj → result string)
    (filtered_data : dataset) (feature : string) (rows col : list pyobj) :
  bucket_key bin_size = Some key_of →
  filtered_data !! "timestamp" = Some rows →
  filtered_data !! feature = Some col →
  length col = length rows →
  forallb is_timestamp rows = true →
  ∃ res, count_by key_of filtered_data feature = Ok res
    ∧ ∀ b v c, mk_bar_record b v c ∈ res
        ↔ c = Z.of_nat (length (rows_with key_of b v rows col)) ∧ 0 < c.
Proof.
  intros Hb Hrows Hcol Hlen Hts.
  destruct (count_by_run _ _ _ _ _ _ Hb Hrows Hcol Hlen Hts) as (keys & Hk & Hrun).
  eexists. split; [exact Hrun|]. intros b v c.
  pose proof (good_bump_all (zip keys col) [] good_bins_nil) as Hgood.
  pose proof (pair_count_bump_all b v (zip keys col) []) as Hpc.
  rewrite (zip_keys_filter key_of b v rows keys col Hk) in Hpc.
  change (pair_count b v []) with 0 in Hpc. rewrite Z.add_0_l in Hpc.
  rewrite (elem_of_emit b v c _ Hgood). unfold pair_count in Hpc. split.
  - intros (counts & Hbk & Hv). rewrite Hbk in Hpc. simpl in Hpc. rewrite Hv in Hpc.
    simpl in Hpc. split; [done|].
    pose proof (dict_get_good b _ Hgood) as [_ Hpos]. rewrite Hbk in Hpos. simpl in Hpos.
    apply dict_get_Some_elem in Hv. rewrite Forall_forall in Hpos.
    specialize (Hpos _ Hv). simpl in Hpos. lia.
  - intros [-> Hpos]. rewrite <- Hpc in Hpos |- *.
    destruct (dict_get b _) as [counts|]; simpl in *; [|lia].
    exists counts. split; [done|]. destruct (dict_get v counts); simpl in *; [done|lia].
Qed.

Lemma record_counts_rows_of_pair_witness :
  ∃ res, count_by month_key ex_rows "status" = Ok res
    ∧ (mk_bar_record "2024-01" (VStr "failed") 1 ∈ res)
    ∧ ¬ (mk_bar_record "2024-01" (VStr "failed") 2 ∈ res).
Proof.
  destruct (record_counts_rows_of_pair "1M" month_key ex_rows "status"
              [VDatetime ex_t1; VDatetime ex_t2] [VStr "active"; VStr "failed"]
              eq_refl eq_refl eq_refl eq_refl eq_refl) as (res & Hrun & Hres).
  exists res. split_and!; [exact Hrun| |].
  - apply Hres. split; [reflexivity|done].
  - intros [H _]%Hres. vm_compute in H. discriminate H.
Defined.

(** X2. Under the same conditions the counts of all the records add up to the
    number of rows, and there are at most as many records as rows. *)
Theorem counts_add_up_to_rows (bin_size : string) (key_of : pyobj → result string)
    (filtered_data : dataset) (feature : string) (rows col : list pyobj) :
  bucket_key bin_size = Some key_of →
  filtered_data !! "timestamp" = Some rows →
  filtered_data !! feature = Some col →
  length col = length rows →
  forallb is_timestamp rows = true →
  ∃ res, count_by key_of filtered_data feature = Ok res
    ∧ sum_counts res = Z.of_nat (length rows)
    ∧ (length res ≤ length rows)%nat.
Proof.
  intros Hb Hrows Hcol Hlen Hts.
  destruct (count_by_run _ _ _ _ _ _ Hb Hrows Hcol Hlen Hts) as (keys & Hk & Hrun).
  eexists. split; [exact Hrun|].
  assert (Hsum : sum_counts (emit (bump_all [] (zip keys col))) = Z.of_nat (length rows)).
  { rewrite sum_counts_emit_all, total_all_bump_all. simpl.
    rewrite length_zip. apply Forall2_length in Hk. lia. }
  split; [done|].
  pose proof (emit_Forall _ (good_bump_all (zip keys col) [] good_bins_nil)) as Hpos.
  revert Hsum Hpos. generalize (emit (bump_all [] (zip keys col))) (length rows).
  intros res n. revert n. induction res as [|r res IH]; intros n Hsum Hpos; simpl; [lia|].
  apply Forall_cons in Hpos as [Hr Hpos]. simpl in Hsum.
  specialize (IH (Z.to_nat (sum_counts res))). 
  assert (0 <= sum_counts res).
  { clear -Hpos. induction Hpos; simpl; lia. }
  specialize (IH ltac:(lia) Hpos). lia.
Qed.

Lemma counts_add_up_to_rows_witness :
  ∃ res, count_by hour_key ex_rows "user" = Ok res ∧ sum_counts res = 2.
Proof.
  destruct (counts_add_up_to_rows "1H" hour_key ex_rows "user"
              [VDatetime ex_t1; VDatetime ex_t2] [VStr "alice"; VStr "bob"]
              eq_refl eq_refl eq_refl eq_refl eq_refl) as (res & Hrun & Hsum & _).
  exists res. split; [exact Hrun|exact Hsum].
Defined.

Lemma bump_keys key v bins : (bump key v bins).*1 = first_seen_step bins.*1 key.
Proof.
  unfold bump, first_seen_step. cbv zeta.
  set (bins1 := if dict_get key bins is None then dict_set key [] bins else bins).
  assert (H1 : bins1.*1 = (if decide (key ∈ bins.*1) then bins.*1 else bins.*1 ++ [key])
               ∧ is_Some (dict_get key bins1)).
  { subst bins1. destruct (dict_get key bins) eqn:Hg.
    - split; [|by eexists]. rewrite decide_True; [done|].
      destruct (decide (key ∈ bins.*1)) as [|Hn]; [done|].
      apply dict_get_None in Hn. congruence.
    - split; [|rewrite dict_get_set_eq; by eexists].
      rewrite dict_set_keys, Hg. rewrite decide_False; [done|]. by apply dict_get_None. }
  destruct H1 as [H1 [c Hc]]. rewrite dict_set_keys, Hc. exact H1.
Qed.

Lemma bump_all_keys kvs : ∀ bins,
  (bump_all bins kvs).*1 = foldl first_seen_step bins.*1 kvs.*1.
Proof.
  induction kvs as [|[k v] kvs IH]; intros bins; [done|].
  csimpl. by rewrite IH, bump_keys.
Qed.

Lemma elem_of_dict_set_ne {K V} `{EqDecision K} (k k' : K) (v v' : V) d :
  (k', v') ∈ dict_set k v d → k' ≠ k → (k', v') ∈ d.
Proof.
  intros Hin Hne. induction d as [|[k0 v0] d IH]; simpl in Hin.
  - apply list_elem_of_singleton in Hin. congruence.
  - destruct (decide (k = k0)) as [->|Hk].
    + apply elem_of_cons in Hin as [?|?]; [congruence|by right].
    + apply elem_of_cons in Hin as [->|?]; [by left|right; auto].
Qed.

Lemma dict_set_Forall_NoDup {K V} `{EqDecision K} (P : K * V → Prop) (k : K) (v : V) d :
  NoDup d.*1 → P (k, v) → (∀ p, p ∈ d → p.1 ≠ k → P p) → Forall P (dict_set k v d).
Proof.
  intros Hn Hp Hd. induction d as [|[k0 v0] d IH]; simpl.
  - by constructor.
  - rewrite fmap_cons in Hn. apply NoDup_cons in Hn as [Hk0 Hn].
    destruct (decide (k = k0)) as [->|Hk].
    + constructor; [done|]. apply Forall_forall. intros [k1 v1] Hin.
      apply Hd; [by right|]. simpl. intros ->. apply Hk0.
      apply list_elem_of_fmap. by exists (k0, v1).
    + constructor; [apply Hd; [by left|by simpl; congruence]|].
      apply IH; [done|]. intros p Hin. apply Hd. by right.
Qed.

Lemma dict_set_not_nil {K V} `{EqDecision K} (k : K) (v : V) d : dict_set k v d ≠ [].
Proof. destruct d as [|[k0 v0] d]; simpl; [done|]. by destruct (decide (k = k0)). Qed.

Lemma nonempty_bump key v bins :
  good_bins bins → nonempty_bins bins → nonempty_bins (bump key v bins).
Proof.
  intros [Hn _] Hne. unfold bump. cbv zeta.
  set (bins1 := if dict_get key bins is None then dict_set key [] bins else bins).
  assert (H1 : NoDup bins1.*1 ∧ ∀ p, p ∈ bins1 → p.1 ≠ key → p ∈ bins).
  { subst bins1. destruct (dict_get key bins); [done|]. split.
    - by apply dict_set_NoDup.
    - intros [k1 v1] Hin Hk. by eapply elem_of_dict_set_ne. }
  destruct H1 as [Hn1 Hin1]. apply dict_set_Forall_NoDup; [done|apply dict_set_not_nil|].
  intros p Hp Hk. unfold nonempty_bins in Hne. rewrite Forall_forall in Hne.
  apply Hne. by apply Hin1.
Qed.

Lemma nonempty_bump_all kvs : ∀ bins,
  good_bins bins → nonempty_bins bins → nonempty_bins (bump_all bins kvs).
Proof.
  induction kvs as [|[k v] kvs IH]; intros bins Hg Hne; [done|].
  simpl. apply IH; [by apply good_bump|by apply nonempty_bump].
Qed.

Lemma emit_counts_dates key counts :
  date <$> emit_counts key counts = replicate (length counts) key.
Proof.
  induction counts as [|[v c] counts IH]; [done|]. csimpl. by rewrite IH.
Qed.

Lemma emit_blocks bins :
  date <$> emit bins = blocks bins.*1 (length <$> bins.*2).
Proof.
  unfold blocks. induction bins as [|[key counts] bins IH]; [done|].
  rewrite emit_cons, fmap_app, emit_counts_dates, IH. reflexivity.
Qed.

Lemma nonempty_bins_sizes bins :
  nonempty_bins bins → Forall2 (λ _ n, (1 ≤ n)%nat) bins.*1 (length <$> bins.*2).
Proof.
  induction 1 as [|[key counts] bins Hc _ IH]; [constructor|].
  csimpl. constructor; [|done]. destruct counts; [done|simpl; lia].
Qed.

(** X3. The records come bucket by bucket, the buckets in the order in which
    the rows first mention their keys: the dates of the records are the
    first key at least once, then the second key at least once, and so on
    through the distinct keys of the rows in their order of first
    occurrence. *)
Theorem buckets_in_first_seen_order (bin_size : string) (key_of : pyobj → result string)
    (filtered_data : dataset) (feature : string) (rows col : list pyobj) :
  bucket_key bin_size = Some key_of →
  filtered_data !! "timestamp" = Some rows →
  filtered_data !! feature = Some col →
  length col = length rows →
  forallb is_timestamp rows = true →
  ∃ res keys sizes, count_by key_of filtered_data feature = Ok res
    ∧ Forall2 (λ ts k, key_of ts = Ok k) rows keys
    ∧ date <$> res = blocks (first_seen keys) sizes
    ∧ Forall2 (λ _ n, (1 ≤ n)%nat) (first_seen keys) sizes
    ∧ NoDup (first_seen keys).
Proof.
  intros Hb Hrows Hcol Hlen Hts.
  destruct (count_by_run _ _ _ _ _ _ Hb Hrows Hcol Hlen Hts) as (keys & Hk & Hrun).
  pose proof (good_bump_all (zip keys col) [] good_bins_nil) as [Hnd _].
  pose proof (nonempty_bump_all (zip keys col) [] good_bins_nil (Forall_nil_2 _)) as Hne.
  assert (Hkeys : (bump_all [] (zip keys col)).*1 = first_seen keys).
  { rewrite bump_all_keys. unfold first_seen. simpl.
    rewrite fst_zip; [done|]. apply Forall2_length in Hk. lia. }
  exists (emit (bump_all [] (zip keys col))), keys,
    (length <$> (bump_all [] (zip keys col)).*2).
  split_and!; [exact Hrun|done| | |].
  - by rewrite emit_blocks, Hkeys.
  - rewrite <- Hkeys. by apply nonempty_bins_sizes.
  - by rewrite <- Hkeys.
Qed.

Lemma buckets_in_first_seen_order_witness :
  ∃ res keys sizes, count_by day_key ex_rows "status" = Ok res
    ∧ Forall2 (λ ts k, day_key ts = Ok k) [VDatetime ex_t1; VDatetime ex_t2] keys
    ∧ date <$> res = blocks (first_seen keys) sizes
    ∧ Forall2 (λ _ n, (1 ≤ n)%nat) (first_seen keys) sizes
    ∧ NoDup (first_seen keys).
Proof.
  exact (buckets_in_first_seen_order "1D" day_key ex_rows "status"
           [VDatetime ex_t1; VDatetime ex_t2] [VStr "active"; VStr "failed"]
           eq_refl eq_refl eq_refl eq_refl eq_refl).
Defined.

Lemma count_rows_short key_of (fd : dataset) feature col rows : ∀ bins i,
  fd !! feature = Some col →
  Forall (λ ts, ∃ key, key_of ts = Ok key) rows →
  (i ≤ length col < i + length rows)%nat →
  count_rows key_of fd feature bins i rows = Raise IndexError.
Proof.
  intros bins i Hcol Hkeys. revert bins i.
  induction Hkeys as [|ts rows [k Hk] _ IH]; intros bins i Hlen; simpl in Hlen; [lia|].
  simpl. destruct (decide (i < length col)%nat) as [Hlt|Hge].
  - destruct (lookup_lt_is_Some_2 col i Hlt) as [v Hv].
    rewrite (count_row_ok key_of fd feature col Hcol bins i ts k v Hk Hv). simpl.
    apply IH. lia.
  - unfold count_row, getitem, index. rewrite Hk, Hcol. simpl.
    rewrite lookup_ge_None_2 by lia. done.
Qed.

(** X4. When the feature column is shorter than the timestamp column, the
    counting loop fails with [IndexError]. *)
Theorem short_feature_column_raises_IndexError (bin_size : string)
    (key_of : pyobj → result string) (filtered_data : dataset) (feature : string)
    (rows col : list pyobj) :
  bucket_key bin_size = Some key_of →
  filtered_data !! "timestamp" = Some rows →
  filtered_data !! feature = Some col →
  (length col < length rows)%nat →
  forallb is_timestamp rows = true →
  count_by key_of filtered_data feature = Raise IndexError.
Proof.
  intros Hb Hrows Hcol Hlen Hts.
  assert (Hkeys : Forall (λ ts, ∃ key, key_of ts = Ok key) rows).
  { apply Forall_forall. intros ts Hin. eapply bucket_key_total; [done|].
    rewrite forallb_forall in Hts. apply Hts. by apply list_elem_of_In. }
  unfold count_by, getitem. rewrite Hrows. simpl.
  rewrite (count_rows_short key_of filtered_data feature col rows [] 0%nat Hcol Hkeys);
    [done|lia].
Qed.

Lemma short_feature_column_raises_IndexError_witness :
  count_by day_key (<["status" := [VStr "active"]]> ex_rows) "status" = Raise IndexError.
Proof.
  apply (short_feature_column_raises_IndexError "1D" day_key _ "status"
           [VDatetime ex_t1; VDatetime ex_t2] [VStr "active"]);
    [reflexivity|reflexivity|reflexivity|simpl; lia|reflexivity].
Defined.

Lemma bucket_key_not_datetime bin key_of ts :
  bucket_key bin = Some key_of → (∀ t, ts ≠ VDatetime t) →
  key_of ts = Raise AttributeError.
Proof.
  intros Hb Hts. unfold bucket_key in Hb.
  repeat case_match; simplify_eq; destruct ts as [| |t]; try done; by destruct (Hts t).
Qed.

(** X5. A timestamp that is not a datetime makes the counting loop fail with
    [AttributeError], the failed call of [strftime], when the rows before it
    are datetimes and have a feature value. *)
Theorem non_datetime_timestamp_raises_AttributeError (bin_size : string)
    (key_of : pyobj → result string) (filtered_data : dataset) (feature : string)
    (before after col : list pyobj) (bad : pyobj) :
  bucket_key bin_size = Some key_of →
  filtered_data !! "timestamp" = Some (before ++ bad :: after) →
  filtered_data !! feature = Some col →
  (length before ≤ length col)%nat →
  forallb is_timestamp before = true →
  (∀ t, bad ≠ VDatetime t) →
  count_by key_of filtered_data feature = Raise AttributeError.
Proof.
  intros Hb Hrows Hcol Hlen Hts Hbad.
  assert (Hkeys : Forall (λ ts, ∃ key, key_of ts = Ok key) before).
  { apply Forall_forall. intros ts Hin. eapply bucket_key_total; [done|].
    rewrite forallb_forall in Hts. apply Hts. by apply list_elem_of_In. }
  unfold count_by, getitem. rewrite Hrows. simpl.
  assert (Hgo : ∀ bins i, (i + length before ≤ length col)%nat →
            count_rows key_of filtered_data feature bins i (before ++ bad :: after)
            = Raise AttributeError).
  { clear Hts Hrows. induction Hkeys as [|ts rows [k Hk] _ IH]; intros bins i Hi.
    - simpl. unfold count_row.
      by rewrite (bucket_key_not_datetime _ _ _ Hb Hbad).
    - simpl in *. destruct (lookup_lt_is_Some_2 col i) as [v Hv]; [lia|].
      rewrite (count_row_ok key_of filtered_data feature col Hcol bins i ts k v Hk Hv).
      simpl. apply IH; lia. }
  rewrite Hgo; [done|simpl; lia].
Qed.

Lemma non_datetime_timestamp_raises_AttributeError_witness :
  count_by week_key
    (<["timestamp" := [VDatetime ex_t1; VStr "2024-01-03T23:59:59"]]> ex_rows) "status"
  = Raise AttributeError.
Proof.
  apply (non_datetime_timestamp_raises_AttributeError "1W" week_key _ "status"
           [VDatetime ex_t1] [] [VStr "active"; VStr "failed"]
           (VStr "2024-01-03T23:59:59"));
    [reflexivity|reflexivity|reflexivity|simpl; lia|reflexivity|done].
Defined.

Lemma filter_indices_TypeError sd ed rows : ∀ i,
  (∃ ts, ts ∈ rows ∧ ∀ t, ts ≠ VDatetime t) →
  filter_indices sd ed i rows = Raise TypeError.
Proof.
  induction rows as [|ts rows IH]; intros i (bad & Hin & Hbad).
  - by apply elem_of_nil in Hin.
  - simpl. destruct ts as [s|n|t]; try done. simpl.
    rewrite IH; [done|]. exists bad. split; [|done].
    apply elem_of_cons in Hin as [->|?]; [by destruct (Hbad t)|done].
Qed.

(** X6. Once both dates are parsed, a value of the timestamp column that is
    not a datetime makes the filter fail with [TypeError], the failed
    comparison. *)
Theorem non_datetime_timestamp_in_window_raises_TypeError (bar fd : dataset)
    (feature s e : string) (start_dt end_dt : datetime) (rows : list pyobj) (bad : pyobj) :
  fromisoformat s = Ok start_dt →
  fromisoformat e = Ok end_dt →
  bar !! "timestamp" = Some rows →
  bad ∈ rows →
  (∀ t, bad ≠ VDatetime t) →
  range_filter bar feature s e fd = Raise TypeError.
Proof.
  intros Hs He Hrows Hin Hbad. unfold range_filter, getitem.
  rewrite Hs, He, Hrows. simpl. rewrite filter_indices_TypeError; [done|].
  by exists bad.
Qed.

Lemma non_datetime_timestamp_in_window_raises_TypeError_witness :
  range_filter (<["timestamp" := [VDatetime ex_t1; VInt 1704326399]]> ex_rows)
    "status" "2024-01-01" "2024-01-03" ex_rows = Raise TypeError.
Proof.
  apply (non_datetime_timestamp_in_window_raises_TypeError _ _ "status"
           "2024-01-01" "2024-01-03" ex_t1 (mk_datetime 2024 1 3 0 0 0 0)
           [VDatetime ex_t1; VInt 1704326399]
           (VInt 1704326399));
    [reflexivity|reflexivity|reflexivity|by right; left|done].
Defined.

(** ** Bucket keys and date windows *)

(** *** Bucket labels *)

Lemma Ok_inj {A} (a b : A) : Ok a = Ok b → a = b.
Proof. congruence. Qed.

Lemma day_key_eq t :
  day_key (VDatetime t) = Ok (isoformat_date (year t) (month t) (day t)).
Proof. reflexivity. Qed.

Lemma hour_key_chars t :
  hour_key (VDatetime t)
  = Ok (String (digit (year t / 10 / 10 / 10)) (String (digit (year t / 10 / 10))
      (String (digit (year t / 10)) (String (digit (year t)) (String "-"
        (String (digit (month t / 10)) (String (digit (month t)) (String "-"
          (String (digit (day t / 10)) (String (digit (day t)) (String " "
            (String (digit (hour t / 10)) (String (digit (hour t)) ":00"))))))))))))).
Proof. reflexivity. Qed.

Lemma month_key_chars t :
  month_key (VDatetime t)
  = Ok (String (digit (year t / 10 / 10 / 10)) (String (digit (year t / 10 / 10))
      (String (digit (year t / 10)) (String (digit (year t)) (String "-"
        (String (digit (month t / 10)) (String (digit (month t)) ""))))))).
Proof. reflexivity. Qed.

Lemma digit_inj a b : digit a = digit b → a mod 10 = b mod 10.
Proof.
  intros H. apply (f_equal digit_val) in H. rewrite !digit_val_digit in H. congruence.
Qed.

Lemma zfill2_inj a b :
  0 <= a < 100 → 0 <= b < 100 →
  digit (a / 10) = digit (b / 10) → digit a = digit b → a = b.
Proof. intros Ha Hb H1%digit_inj H2%digit_inj. zdm. Qed.

Lemma zfill4_inj a b :
  0 <= a < 10000 → 0 <= b < 10000 →
  digit (a / 10 / 10 / 10) = digit (b / 10 / 10 / 10) →
  digit (a / 10 / 10) = digit (b / 10 / 10) →
  digit (a / 10) = digit (b / 10) → digit a = digit b → a = b.
Proof. intros Ha Hb H1%digit_inj H2%digit_inj H3%digit_inj H4%digit_inj. zdm. Qed.

Lemma valid_datetime_bounds t :
  valid_datetime t = true →
  (1 <= year t <= 9999 ∧ 1 <= month t <= 12 ∧ 1 <= day t <= 31)
  ∧ (0 <= hour t <= 23 ∧ 0 <= minute t <= 59 ∧ 0 <= second t <= 59
     ∧ 0 <= microsecond t <= 999999).
Proof.
  intros [Hd Ht]%andb_prop. apply valid_date_bounds in Hd as (Hy & Hm & Hd).
  pose proof (days_in_month_le (year t) (month t)).
  unfold valid_time in Ht. rewrite !andb_true_iff, !Z.leb_le in Ht. lia.
Qed.

Lemma ymd2ord_inj y1 m1 d1 y2 m2 d2 :
  valid_date y1 m1 d1 = true → valid_date y2 m2 d2 = true →
  _ymd2ord y1 m1 d1 = _ymd2ord y2 m2 d2 → (y1, m1, d1) = (y2, m2, d2).
Proof.
  intros H1 H2 He.
  assert (y1 = y2) as ->.
  { destruct (Z.lt_trichotomy y1 y2) as [Hlt|[?|Hlt]]; [|done|].
    - pose proof (ymd2ord_year_lt _ _ _ _ _ _ H1 H2 Hlt). lia.
    - pose proof (ymd2ord_year_lt _ _ _ _ _ _ H2 H1 Hlt). lia. }
  assert (m1 = m2) as ->.
  { destruct (Z.lt_trichotomy m1 m2) as [Hlt|[?|Hlt]]; [|done|].
    - pose proof (ymd2ord_month_lt _ _ _ _ _ H1 H2 Hlt). lia.
    - pose proof (ymd2ord_month_lt _ _ _ _ _ H2 H1 Hlt). lia. }
  unfold _ymd2ord in He. repeat f_equal. lia.
Qed.

Lemma week_key_eq t :
  valid_datetime t = true →
  ∃ monday, week_key (VDatetime t)
            = Ok (isoformat_date (year monday) (month monday) (day monday))
    ∧ valid_datetime monday = true
    ∧ toordinal monday = toordinal t - weekday t.
Proof.
  intros Hv. destruct (week_start_ok t Hv) as (monday & Hm & Hvm & Hw & Hr & _).
  exists monday. split_and!; [|done|].
  - unfold week_key. simpl. rewrite Hm. reflexivity.
  - unfold weekday in *. zdm.
Qed.

Lemma isoformat_date_inj y1 m1 d1 y2 m2 d2 :
  0 <= y1 < 10000 → 0 <= y2 < 10000 → 0 <= m1 < 100 → 0 <= m2 < 100 →
  0 <= d1 < 100 → 0 <= d2 < 100 →
  isoformat_date y1 m1 d1 = isoformat_date y2 m2 d2 → (y1, m1, d1) = (y2, m2, d2).
Proof.
  intros ? ? ? ? ? ? H. rewrite !isoformat_date_chars in H.
  injection H as Y1 Y2 Y3 Y4 M1 M2 D1 D2.
  rewrite (zfill4_inj y1 y2), (zfill2_inj m1 m2), (zfill2_inj d1 d2); done.
Qed.

Lemma string_length_app (s t : string) :
  String.length (s +:+ t) = (String.length s + String.length t)%nat.
Proof.
  induction s as [|c s IH]; [done|].
  change (S (String.length (s +:+ t)) = S (String.length s + String.length t)).
  by rewrite IH.
Qed.

Lemma string_app_inj_tail (s1 s2 t1 t2 : string) :
  String.length t1 = String.length t2 → s1 +:+ t1 = s2 +:+ t2 → s1 = s2 ∧ t1 = t2.
Proof.
  intros Hl. revert s2. induction s1 as [|c s1 IH]; intros [|c' s2] H.
  - done.
  - change (t1 = String c' (s2 +:+ t2)) in H.
    apply (f_equal String.length) in H. simpl in H. rewrite string_length_app in H. lia.
  - change (String c (s1 +:+ t1) = t2) in H.
    apply (f_equal String.length) in H. simpl in H. rewrite string_length_app in H. lia.
  - change (String c (s1 +:+ t1) = String c' (s2 +:+ t2)) in H.
    injection H as -> H. destruct (IH _ H) as [-> ->]. done.
Qed.

Lemma quarter_label q : 1 <= q <= 4 → String.length ("-Q" +:+ str_of_int q) = 3%nat.
Proof.
  intros H. assert (q = 1 ∨ q = 2 ∨ q = 3 ∨ q = 4) as [->|[->|[->| ->]]] by lia;
    reflexivity.
Qed.

(** X7. Two timestamps have the same hourly key exactly when they agree on
    year, month, day and hour; the same daily key exactly when they agree on
    the date; the same weekly key exactly when their weeks start on the same
    Monday; the same monthly key exactly when they agree on year and month;
    the same quarterly key exactly when they agree on the year and the
    quarter of the year. *)
Theorem same_bucket_same_period (t1 t2 : datetime) :
  valid_datetime t1 = true → valid_datetime t2 = true →
  (hour_key (VDatetime t1) = hour_key (VDatetime t2)
   ↔ (year t1, month t1, day t1, hour t1) = (year t2, month t2, day t2, hour t2))
  ∧ (day_key (VDatetime t1) = day_key (VDatetime t2)
     ↔ (year t1, month t1, day t1) = (year t2, month t2, day t2))
  ∧ (week_key (VDatetime t1) = week_key (VDatetime t2)
     ↔ toordinal t1 - weekday t1 = toordinal t2 - weekday t2)
  ∧ (month_key (VDatetime t1) = month_key (VDatetime t2)
     ↔ (year t1, month t1) = (year t2, month t2))
  ∧ (quarter_key (VDatetime t1) = quarter_key (VDatetime t2)
     ↔ (year t1, (month t1 - 1) / 3) = (year t2, (month t2 - 1) / 3)).
Proof.
  intros Hv1 Hv2.
  destruct (valid_datetime_bounds t1 Hv1) as ((Y1 & M1 & D1) & (H1 & _)).
  destruct (valid_datetime_bounds t2 Hv2) as ((Y2 & M2 & D2) & (H2 & _)).
  split_and!.
  - rewrite !hour_key_chars. split.
    + intros H. injection H as A1 A2 A3 A4 B1 B2 C1 C2 E1 E2.
      rewrite (zfill4_inj (year t1) (year t2)), (zfill2_inj (month t1) (month t2)),
        (zfill2_inj (day t1) (day t2)), (zfill2_inj (hour t1) (hour t2)); (done || lia).
    + by intros [= -> -> -> ->].
  - rewrite !day_key_eq. split.
    + intros H%Ok_inj. apply isoformat_date_inj in H; (done || lia).
    + by intros [= -> -> ->].
  - destruct (week_key_eq t1 Hv1) as (a & -> & Hva & Ha).
    destruct (week_key_eq t2 Hv2) as (b & -> & Hvb & Hb).
    rewrite <- Ha, <- Hb.
    destruct (valid_datetime_bounds a Hva) as ((? & ? & ?) & _).
    destruct (valid_datetime_bounds b Hvb) as ((? & ? & ?) & _).
    apply andb_prop in Hva as [Hva _]. apply andb_prop in Hvb as [Hvb _].
    split.
    + intros Hk%Ok_inj. apply isoformat_date_inj in Hk; [|lia..].
      unfold toordinal. by injection Hk as -> -> ->.
    + unfold toordinal. intros Hk. apply ymd2ord_inj in Hk; [|done..].
      by injection Hk as -> -> ->.
  - rewrite !month_key_chars. split.
    + intros H. injection H as A1 A2 A3 A4 B1 B2.
      rewrite (zfill4_inj (year t1) (year t2)), (zfill2_inj (month t1) (month t2));
        (done || lia).
    + by intros [= -> ->].
  - unfold quarter_key. simpl. split.
    + intros H%Ok_inj. apply string_app_inj_tail in H as [Hy Hq].
      * apply (inj pretty) in Hy. apply (inj (String.app "-Q")) in Hq.
        apply (inj pretty) in Hq. f_equal; [done|lia].
      * rewrite !quarter_label; [done|zdm|zdm].
    + intros [= -> Hq]. by rewrite Hq.
Qed.

Lemma same_bucket_same_period_witness :
  week_key (VDatetime (mk_datetime 2024 3 11 0 0 0 0))
  = week_key (VDatetime (mk_datetime 2024 3 17 23 59 59 0)).
Proof.
  apply (same_bucket_same_period (mk_datetime 2024 3 11 0 0 0 0)
           (mk_datetime 2024 3 17 23 59 59 0) eq_refl eq_refl).
  reflexivity.
Defined.

Lemma fromisoformat_hour_label y m d h :
  valid_date y m d = true → 0 <= h <= 23 →
  fromisoformat
    (String (digit (y / 10 / 10 / 10)) (String (digit (y / 10 / 10))
      (String (digit (y / 10)) (String (digit y) (String "-"
        (String (digit (m / 10)) (String (digit m) (String "-"
          (String (digit (d / 10)) (String (digit d) (String " "
            (String (digit (h / 10)) (String (digit h) ":00")))))))))))))
  = Ok (mk_datetime y m d h 0 0 0).
Proof.
  intros Hv Hh. pose proof (valid_date_bounds _ _ _ Hv) as (Hy & Hm & Hd).
  pose proof (days_in_month_le y m).
  unfold fromisoformat, _parse_isoformat_date, _parse_hh_mm_ss. cbn.
  repeat (first [rewrite !digit_val_digit
                | rewrite (decide_True (P := "-"%char = "-"%char)) by done
                | rewrite (decide_True (P := ":"%char = ":"%char)) by done]; cbn).
  replace (((0 * 10 + y / 10 / 10 / 10 mod 10) * 10 + y / 10 / 10 mod 10) * 10
           + y / 10 mod 10) with (y / 10) by zdm.
  replace (y / 10 * 10 + y mod 10) with y by zdm.
  replace ((0 * 10 + m / 10 mod 10) * 10 + m mod 10) with m by zdm.
  replace ((0 * 10 + d / 10 mod 10) * 10 + d mod 10) with d by zdm.
  replace ((0 * 10 + h / 10 mod 10) * 10 + h mod 10) with h by zdm.
  apply new_datetime_valid; [done|].
  unfold valid_time. rewrite !andb_true_iff, !Z.leb_le. lia.
Qed.

(** X8. For a timestamp in year 1000 or later, [fromisoformat] reads the
    daily key back as the start of the day and the hourly key as the start
    of the hour; when the Monday that starts the week is in year 1000 or
    later, it reads the weekly key back as midnight of that Monday, which is
    not after the timestamp. *)
Theorem day_and_hour_labels_parse_back (t : datetime) :
  valid_datetime t = true →
  1000 <= year t →
  (∃ label, day_key (VDatetime t) = Ok label
      ∧ fromisoformat label = Ok (start_of_day t))
  ∧ (∃ label, hour_key (VDatetime t) = Ok label
      ∧ fromisoformat label = Ok (start_of_hour t))
  ∧ (∀ monday, datetime_sub_days t (weekday t) = Ok monday →
       1000 <= year monday →
       ∃ label, week_key (VDatetime t) = Ok label
         ∧ fromisoformat label = Ok (start_of_day monday)
         ∧ weekday monday = 0
         ∧ datetime_le (start_of_day monday) t = true).
Proof.
  intros Hv _. pose proof Hv as [Hd Ht]%andb_prop.
  destruct (valid_datetime_bounds t Hv) as (_ & (Hh & _)).
  split_and!.
  - eexists. split; [apply day_key_eq|]. by apply fromisoformat_isoformat_date.
  - eexists. split; [apply hour_key_chars|]. by apply fromisoformat_hour_label.
  - intros monday' Hm' _.
    destruct (week_start_ok t Hv) as (monday & Hm & Hvm & Hw & Hr & _).
    rewrite Hm in Hm'. injection Hm' as <-.
    pose proof Hvm as [Hdm _]%andb_prop.
    exists (isoformat_date (year monday) (month monday) (day monday)).
    split_and!; [|by apply fromisoformat_isoformat_date|done|].
    + unfold week_key. simpl. rewrite Hm. reflexivity.
    + apply datetime_le_chronological; [|done|].
      * unfold valid_datetime, start_of_day. simpl. by rewrite Hdm.
      * destruct (valid_datetime_bounds t Hv) as (_ & (? & ? & ? & ?)).
        unfold datetime_sub, toordinal in *. simpl. nia.
Qed.

Lemma day_and_hour_labels_parse_back_witness :
  ∃ label, hour_key (VDatetime ex_t2) = Ok label
    ∧ fromisoformat label = Ok (mk_datetime 2024 1 3 23 0 0 0).
Proof.
  apply (day_and_hour_labels_parse_back ex_t2 eq_refl). unfold ex_t2. simpl. lia.
Defined.

(** *** Windows that select nothing *)






(** ** The cache across calls *)

(** *** Runs of [get_data] *)

Lemma get_data_hit test bar query w T :
  last_load_time (self w) = Some T →
  fresh w (Some T) = true →
  ∃ line, get_data test bar query w
    = (Ok (data (self w)),
       mk_world (self w) (clock w) (S (ticks w)) (stdout w ++ [line]) (refreshes w)).
Proof.
  intros HT Hf. unfold get_data, _is_cache_valid, fresh in *. simpl in Hf.
  unfold_m. simpl. rewrite HT. simpl. rewrite Hf. eauto.
Qed.

Lemma get_data_miss test bar query w :
  fresh w (last_load_time (self w)) = false →
  ∃ line k, get_data test bar query w
    = (Ok (Some test),
       mk_world (mk_handler (Some test) (bar_data (self w)) (Some (clock w k))
                   (bar_last_load_time (self w)) (cache_duration (self w)))
         (clock w) (S k) (stdout w ++ [line]) (S (refreshes w)))
    ∧ (ticks w < k)%nat.
Proof.
  intros Hf. unfold get_data, _is_cache_valid, _update_cache, fresh in *.
  unfold_m. simpl.
  destruct (last_load_time (self w)) as [T|]; simpl in *.
  - rewrite Hf. do 2 eexists. split; [reflexivity|simpl; lia].
  - do 2 eexists. split; [reflexivity|simpl; lia].
Qed.

Lemma slot_ok_later source w w' slot last :
  clock w' = clock w → (ticks w ≤ ticks w')%nat →
  slot_ok source w slot last → slot_ok source w' slot last.
Proof.
  intros Hc Ht [H|[H (k & Hk & Hl)]]; [by left|right].
  split; [done|]. exists k. rewrite Hc. split; [lia|done].
Qed.

(** *** Runs of [bar_snapshot] *)

Lemma bar_snapshot_hit test bar w T :
  bar_last_load_time (self w) = Some T →
  fresh w (Some T) = true →
  truthy_dict (bar_data (self w)) = true →
  ∃ line, bar_snapshot test bar w
    = (Ok (default ∅ (bar_data (self w))),
       mk_world (self w) (clock w) (S (ticks w)) (stdout w ++ [line]) (refreshes w)).
Proof.
  intros HT Hf Hb. unfold bar_snapshot, _is_cache_valid, fresh in *. simpl in Hf.
  unfold_m. simpl. rewrite HT. simpl. rewrite Hf, Hb. simpl. eauto.
Qed.

Lemma bar_snapshot_miss test bar w :
  fresh w (bar_last_load_time (self w)) && truthy_dict (bar_data (self w)) = false →
  ∃ line k, bar_snapshot test bar w
    = (Ok bar,
       mk_world (mk_handler (data (self w)) (Some bar) (last_load_time (self w))
                   (Some (clock w k)) (cache_duration (self w)))
         (clock w) (S k) (stdout w ++ [line]) (S (refreshes w)))
    ∧ (ticks w < k)%nat.
Proof.
  intros Hf. unfold bar_snapshot, _is_cache_valid, _update_cache, fresh in *.
  unfold_m. simpl.
  destruct (bar_last_load_time (self w)) as [T|]; simpl in *.
  - rewrite Hf. destruct (bool_decide (bar = ∅)) eqn:Hb; simpl.
    + apply bool_decide_eq_true in Hb as ->.
      do 2 eexists. split; [reflexivity|simpl; lia].
    + do 2 eexists. split; [reflexivity|simpl; lia].
  - destruct (bool_decide (bar = ∅)) eqn:Hb; simpl.
    + apply bool_decide_eq_true in Hb as ->.
      do 2 eexists. split; [reflexivity|simpl; lia].
    + do 2 eexists. split; [reflexivity|simpl; lia].
Qed.

(** What a run of [bar_snapshot] can change. *)
Lemma bar_snapshot_world test bar w :
  ∃ fd w', bar_snapshot test bar w = (Ok fd, w')
    ∧ clock w' = clock w ∧ (ticks w < ticks w')%nat
    ∧ same_line_slot w w'
    ∧ refreshes w' = (refreshes w
        + if fresh w (bar_last_load_time (self w)) && truthy_dict (bar_data (self w))
          then 0 else 1)%nat
    ∧ (∃ line, stdout w' = stdout w ++ [line])
    ∧ (fresh w (bar_last_load_time (self w)) && truthy_dict (bar_data (self w)) = true →
       self w' = self w)
    ∧ (fresh w (bar_last_load_time (self w)) && truthy_dict (bar_data (self w)) = false →
       bar_data (self w') = Some bar
       ∧ ∃ k, (ticks w < k < ticks w')%nat ∧ bar_last_load_time (self w') = Some (clock w k)).
Proof.
  destruct (fresh w (bar_last_load_time (self w)) && truthy_dict (bar_data (self w)))
    eqn:Hf.
  - apply andb_prop in Hf as [Hf Hb].
    destruct (bar_last_load_time (self w)) as [T|] eqn:HT; [|done].
    destruct (bar_snapshot_hit test bar w T HT Hf Hb) as [line ->].
    do 2 eexists. split; [reflexivity|]. simpl.
    split_and!; try done; try lia; eauto.
  - destruct (bar_snapshot_miss test bar w Hf) as (line & k & -> & Hk).
    do 2 eexists. split; [reflexivity|]. simpl.
    split_and!; try done; try lia; eauto.
    intros _. split; [done|]. exists k. split; [lia|done].
Qed.

(** What a run of [get_bar_data] can change: the world after it is the one
    after one or two runs of [bar_snapshot]. *)
Lemma get_bar_data_world test bar depth feature s e bin w :
  (get_bar_data test bar (S depth) feature s e bin w).2 = (bar_snapshot test bar w).2
  ∨ ∃ w1, (bar_snapshot test bar w).2 = w1 ∧ bucket_key bin = None
      ∧ (get_bar_data test bar (S depth) feature s e bin w).2
        = (get_bar_data test bar depth feature s e "1D" w1).2.
Proof.
  rewrite get_bar_data_unfold.
  destruct (bar_snapshot test bar w) as [[fd|ex] w1]; [|by left].
  rewrite bar_filtered_run.
  destruct (if _ && _ && _ then _ else _) as [fd'|ex]; [|by left].
  destruct (bucket_key bin); [by left|right]. by exists w1.
Qed.

Lemma get_bar_data_preserves (P : world → Prop) test bar :
  (∀ w, P w → P (bar_snapshot test bar w).2) →
  ∀ depth feature s e bin w, P w → P (get_bar_data test bar depth feature s e bin w).2.
Proof.
  intros HP depth feature s e. induction depth as [|d IH]; intros bin w Hw; [done|].
  destruct (get_bar_data_world test bar d feature s e bin w) as [->|(w1 & <- & _ & ->)].
  - by apply HP.
  - apply IH. by apply HP.
Qed.

Lemma get_cache_status_ticks w :
  self (get_cache_status w).2 = self w ∧ clock (get_cache_status w).2 = clock w
  ∧ (ticks w ≤ ticks (get_cache_status w).2)%nat.
Proof.
  unfold get_cache_status, slot_report.
  destruct w as [[d bd [T1|] [T2|] ttl] clk k out r]; unfold_m; simpl;
    split_and!; try done; lia.
Qed.

Lemma slots_consistent_get_data test bar query w :
  slots_consistent test bar w → slots_consistent test bar (get_data test bar query w).2.
Proof.
  intros (Hl & Hb & Hd).
  destruct (fresh w (last_load_time (self w))) eqn:Hf.
  - destruct (last_load_time (self w)) as [T|] eqn:HT; [|done].
    destruct (get_data_hit test bar query w T HT Hf) as [line ->].
    unfold slots_consistent. simpl. rewrite ?HT.
    split_and!; [| |done].
    + eapply slot_ok_later; [| |exact Hl]; simpl; [done|lia].
    + eapply slot_ok_later; [| |exact Hb]; simpl; [done|lia].
  - destruct (get_data_miss test bar query w Hf) as (line & k & -> & Hk).
    unfold slots_consistent. simpl.
    split_and!; [| |done].
    + right. split; [done|]. exists k. simpl. split; [lia|done].
    + eapply slot_ok_later; [| |exact Hb]; simpl; [done|lia].
Qed.

Lemma slots_consistent_bar_snapshot test bar w :
  slots_consistent test bar w → slots_consistent test bar (bar_snapshot test bar w).2.
Proof.
  intros (Hl & Hb & Hd).
  destruct (fresh w (bar_last_load_time (self w)) && truthy_dict (bar_data (self w)))
    eqn:Hf.
  - apply andb_prop in Hf as [Hf Ht].
    destruct (bar_last_load_time (self w)) as [T|] eqn:HT; [|done].
    destruct (bar_snapshot_hit test bar w T HT Hf Ht) as [line ->].
    unfold slots_consistent. simpl. rewrite ?HT.
    split_and!; [| |done].
    + eapply slot_ok_later; [| |exact Hl]; simpl; [done|lia].
    + eapply slot_ok_later; [| |exact Hb]; simpl; [done|lia].
  - destruct (bar_snapshot_miss test bar w Hf) as (line & k & -> & Hk).
    unfold slots_consistent. simpl.
    split_and!; [| |done].
    + eapply slot_ok_later; [| |exact Hl]; simpl; [done|lia].
    + right. split; [done|]. exists k. simpl. split; [lia|done].
Qed.

Lemma reachable_slots test bar w : reachable test bar w → slots_consistent test bar w.
Proof.
  induction 1 as [clk k out r|query w _ IH|depth feature s e bin w _ IH|w _ IH|w _ IH].
  - split_and!; [by left|by left|done].
  - by apply slots_consistent_get_data.
  - revert IH. apply get_bar_data_preserves. apply slots_consistent_bar_snapshot.
  - destruct IH as (_ & _ & Hd). split_and!; [by left|by left|done].
  - destruct IH as (Hl & Hb & Hd).
    destruct (get_cache_status_ticks w) as (Hs & Hc & Ht).
    unfold slots_consistent. rewrite Hs.
    split_and!; [| |done]; (eapply slot_ok_later; [exact Hc|exact Ht|done]).
Qed.

(** X10. In every world a handler can reach, a slot holds data exactly when
    it has a load time, the data it holds is the module-level dataset, every
    load time is a clock reading taken before, and the TTL is 600 seconds. *)
Theorem reachable_slots_consistent (test_data bar_test_data : dataset) (w : world) :
  reachable test_data bar_test_data w →
  let h := self w in
  (data h = None ↔ last_load_time h = None)
  ∧ (bar_data h = None ↔ bar_last_load_time h = None)
  ∧ (∀ d, data h = Some d → d = test_data)
  ∧ (∀ d, bar_data h = Some d → d = bar_test_data)
  ∧ (∀ T, last_load_time h = Some T ∨ bar_last_load_time h = Some T →
       ∃ k, (k < ticks w)%nat ∧ T = clock w k)
  ∧ cache_duration h = 600.
Proof.
  intros Hr h. destruct (reachable_slots _ _ _ Hr) as (Hl & Hb & Hd). subst h.
  split_and!; [| | | | |done].
  - destruct Hl as [[-> ->]|[-> (k & _ & ->)]]; split; done.
  - destruct Hb as [[-> ->]|[-> (k & _ & ->)]]; split; done.
  - intros d Hdd. destruct Hl as [[H _]|[H _]]; congruence.
  - intros d Hdd. destruct Hb as [[H _]|[H _]]; congruence.
  - intros T [HT|HT].
    + destruct Hl as [[_ H]|[_ (k & Hk & H)]]; [congruence|].
      exists k. split; [done|congruence].
    + destruct Hb as [[_ H]|[_ (k & Hk & H)]]; [congruence|].
      exists k. split; [done|congruence].
Qed.

Lemma reachable_slots_consistent_witness :
  cache_duration
    (self (get_bar_data ∅ ex_rows 2 "status" None None "1W"
             (clear_cache (get_data ∅ ex_rows "q" ex_world).2).2).2) = 600.
Proof.
  apply (reachable_slots_consistent ∅ ex_rows
           (get_bar_data ∅ ex_rows 2 "status" None None "1W"
              (clear_cache (get_data ∅ ex_rows "q" ex_world).2).2).2).
  apply reach_get_bar_data, reach_clear_cache, reach_get_data, reach_init.
Defined.

(** X11. In every world a handler can reach, [get_data] returns the
    module-level line dataset, never [None] and never an exception, and
    leaves the line slot loaded. *)
Theorem get_data_returns_source (test_data bar_test_data : dataset) (query : string)
    (w : world) :
  reachable test_data bar_test_data w →
  ∃ w', get_data test_data bar_test_data query w = (Ok (Some test_data), w')
    ∧ data (self w') = Some test_data
    ∧ is_Some (last_load_time (self w')).
Proof.
  intros Hr. destruct (reachable_slots test_data bar_test_data w Hr)
    as (Hl & _ & _).
  destruct (fresh w (last_load_time (self w))) eqn:Hf.
  - destruct (last_load_time (self w)) as [T|] eqn:HT; [|done].
    destruct (get_data_hit test_data bar_test_data query w T HT Hf) as [line ->].
    destruct Hl as [[_ ?]|[Hd _]]; [done|].
    rewrite Hd. eexists. split; [reflexivity|]. simpl. rewrite HT. eauto.
  - destruct (get_data_miss test_data bar_test_data query w Hf) as (line & k & -> & Hk).
    eexists. split; [reflexivity|]. simpl. eauto.
Qed.

Lemma get_data_returns_source_witness :
  ∃ w', get_data ∅ ex_rows "q" (clear_cache (get_data ∅ ex_rows "q" ex_world).2).2
        = (Ok (Some ∅), w').
Proof.
  destruct (get_data_returns_source ∅ ex_rows "q"
              (clear_cache (get_data ∅ ex_rows "q" ex_world).2).2) as (w' & H & _).
  - apply reach_clear_cache, reach_get_data, reach_init.
  - by exists w'.
Defined.

(** X12. [get_data] never raises and never touches the bar slot or the TTL.
    When the line slot is fresh it returns the cached value and changes
    neither the handler nor the refresh counter; otherwise it takes exactly
    one refresh, stores the module-level dataset and records as load time a
    clock reading taken during the call. *)
Theorem get_data_refresh_policy (test_data bar_test_data : dataset) (query : string)
    (w : world) :
  ∃ v w', get_data test_data bar_test_data query w = (Ok v, w')
    ∧ same_bar_slot w w'
    ∧ clock w' = clock w
    ∧ (fresh w (last_load_time (self w)) = true →
       v = data (self w) ∧ self w' = self w ∧ refreshes w' = refreshes w)
    ∧ (fresh w (last_load_time (self w)) = false →
       v = Some test_data ∧ data (self w') = Some test_data
       ∧ refreshes w' = S (refreshes w)
       ∧ ∃ k, (ticks w < k < ticks w')%nat ∧ last_load_time (self w') = Some (clock w k)).
Proof.
  destruct (fresh w (last_load_time (self w))) eqn:Hf.
  - destruct (last_load_time (self w)) as [T|] eqn:HT; [|done].
    destruct (get_data_hit test_data bar_test_data query w T HT Hf) as [line ->].
    do 2 eexists. split; [reflexivity|]. simpl. split_and!; done.
  - destruct (get_data_miss test_data bar_test_data query w Hf) as (line & k & -> & Hk).
    do 2 eexists. split; [reflexivity|]. simpl. split_and!; try done.
    intros _. split_and!; try done. exists k. split; [lia|done].
Qed.

(** X13. With one of the five bin sizes, [get_bar_data] takes no refresh and
    leaves the handler as it was when the bar slot is fresh and not empty,
    and exactly one refresh otherwise, storing the module-level dataset and
    a load time read during the call; it prints exactly one line. This holds
    whether the call returns or raises. *)
Theorem get_bar_data_refresh_policy (test_data bar_test_data : dataset) (depth : nat)
    (feature : string) (s e : option string) (bin : string)
    (key_of : pyobj → result string) (w : world) :
  bucket_key bin = Some key_of →
  let hit := fresh w (bar_last_load_time (self w)) && truthy_dict (bar_data (self w)) in
  ∃ r w', get_bar_data test_data bar_test_data (S depth) feature s e bin w = (r, w')
    ∧ refreshes w' = (refreshes w + if hit then 0 else 1)%nat
    ∧ (hit = true → self w' = self w)
    ∧ (hit = false →
       bar_data (self w') = Some bar_test_data
       ∧ ∃ k, (ticks w < k < ticks w')%nat
              ∧ bar_last_load_time (self w') = Some (clock w k))
    ∧ ∃ line, stdout w' = stdout w ++ [line].
Proof.
  intros Hk hit. subst hit. rewrite get_bar_data_unfold.
  destruct (bar_snapshot_world test_data bar_test_data w)
    as (fd & w1 & -> & Hc & Ht & Hl & Hr & Hout & Hhit & Hmiss).
  rewrite bar_filtered_run, Hk.
  destruct (if _ && _ && _ then _ else _) as [fd'|ex];
    do 2 eexists; (split; [reflexivity|]); split_and!; done.
Qed.

Lemma get_bar_data_refresh_policy_witness :
  ∃ r w', get_bar_data ∅ ex_rows 1 "status" None None "1M" ex_world = (r, w')
    ∧ refreshes w' = 1%nat.
Proof.
  destruct (get_bar_data_refresh_policy ∅ ex_rows 0 "status" None None "1M" month_key
              ex_world eq_refl) as (r & w' & H & Hr & _).
  by exists r, w'.
Defined.

Lemma bar_snapshot_loaded test bar w :
  is_Some (bar_data (self (bar_snapshot test bar w).2))
  ∧ is_Some (bar_last_load_time (self (bar_snapshot test bar w).2)).
Proof.
  destruct (bar_snapshot_world test bar w)
    as (fd & w1 & Hrun & _ & _ & _ & _ & _ & Hhit & Hmiss).
  rewrite Hrun. simpl.
  destruct (fresh w (bar_last_load_time (self w)) && truthy_dict (bar_data (self w)))
    eqn:Hf.
  - rewrite (Hhit eq_refl). apply andb_prop in Hf as [Hf Hb].
    destruct (bar_last_load_time (self w)); [|done].
    destruct (bar_data (self w)); [|done]. eauto.
  - destruct (Hmiss eq_refl) as (-> & k & _ & ->). eauto.
Qed.

Lemma get_bar_data_frames test bar depth feature s e bin w :
  let w' := (get_bar_data test bar depth feature s e bin w).2 in
  same_line_slot w w' ∧ clock w' = clock w ∧ (ticks w ≤ ticks w')%nat
  ∧ (refreshes w ≤ refreshes w')%nat
  ∧ (refreshes w' ≤ refreshes w + if bucket_key bin is Some _ then 1 else 2)%nat.
Proof.
  assert (Hsnap : ∀ w, let w' := (bar_snapshot test bar w).2 in
            same_line_slot w w' ∧ clock w' = clock w ∧ (ticks w ≤ ticks w')%nat
            ∧ (refreshes w ≤ refreshes w')%nat ∧ (refreshes w' ≤ refreshes w + 1)%nat).
  { intros w0. destruct (bar_snapshot_world test bar w0)
      as (fd & w1 & Hrun & Hc & Ht & Hl & Hr & _). rewrite Hrun. simpl.
    split_and!; try done; try lia; rewrite Hr; destruct (_ && _); lia. }
  assert (Hrefl : ∀ w, same_line_slot w w) by (intros; split_and!; done).
  assert (Hknown : ∀ d bin w, bucket_key bin ≠ None →
            let w' := (get_bar_data test bar d feature s e bin w).2 in
            same_line_slot w w' ∧ clock w' = clock w ∧ (ticks w ≤ ticks w')%nat
            ∧ (refreshes w ≤ refreshes w')%nat ∧ (refreshes w' ≤ refreshes w + 1)%nat).
  { intros [|d] bin' w0 Hb; [simpl; split_and!; auto; lia|].
    destruct (get_bar_data_world test bar d feature s e bin' w0)
      as [->|(w1 & _ & Hn & _)]; [apply Hsnap|done]. }
  destruct (bucket_key bin) as [k|] eqn:Hb.
  - apply Hknown. by rewrite Hb.
  - destruct depth as [|d]; [simpl; split_and!; auto; lia|].
    destruct (get_bar_data_world test bar d feature s e bin w)
      as [->|(w1 & Hw1 & _ & ->)].
    + destruct (Hsnap w) as (H1 & H2 & H3 & H4 & H5). simpl. split_and!; auto; lia.
    + destruct (Hsnap w) as ((A1 & A2 & A3) & H2 & H3 & H4 & H5). rewrite Hw1 in *.
      destruct (Hknown d "1D" w1) as ((B1 & B2 & B3) & G2 & G3 & G4 & G5); [done|].
      simpl. split_and!; try lia; try congruence.
      split_and!; congruence.
Qed.

Lemma get_bar_data_loaded test bar depth feature s e bin w :
  let w' := (get_bar_data test bar (S depth) feature s e bin w).2 in
  is_Some (bar_data (self w')) ∧ is_Some (bar_last_load_time (self w')).
Proof.
  destruct (get_bar_data_world test bar depth feature s e bin w)
    as [->|(w1 & Hw1 & _ & ->)]; [apply bar_snapshot_loaded|].
  apply (get_bar_data_preserves
           (λ w, is_Some (bar_data (self w)) ∧ is_Some (bar_last_load_time (self w)))).
  - intros. apply bar_snapshot_loaded.
  - rewrite <- Hw1. apply bar_snapshot_loaded.
Qed.

(** X14. Whatever the request and whether it returns or raises,
    [get_bar_data] leaves the line slot, the TTL and the clock as they were,
    takes at most two refreshes, and leaves the bar slot with data and a
    load time. *)
Theorem get_bar_data_frame (test_data bar_test_data : dataset) (depth : nat)
    (feature : string) (s e : option string) (bin : string) (w : world) :
  (1 ≤ depth)%nat →
  let w' := (get_bar_data test_data bar_test_data depth feature s e bin w).2 in
  same_line_slot w w'
  ∧ clock w' = clock w
  ∧ (refreshes w ≤ refreshes w' ≤ refreshes w + 2)%nat
  ∧ is_Some (bar_data (self w'))
  ∧ is_Some (bar_last_load_time (self w')).
Proof.
  intros Hd w'.
  destruct (get_bar_data_frames test_data bar_test_data depth feature s e bin w)
    as (H1 & H2 & _ & H4 & H5). fold w' in H1, H2, H4, H5.
  destruct depth as [|d]; [lia|].
  destruct (get_bar_data_loaded test_data bar_test_data d feature s e bin w) as [H6 H7].
  fold w' in H6, H7.
  split_and!; [done|done|done|destruct (bucket_key bin); lia|done|done].
Qed.

Lemma get_bar_data_frame_witness :
  is_Some (bar_data (self (get_bar_data ∅ ex_rows 2 "nope" (Some "x") (Some "y") "2D"
                             (get_data ∅ ex_rows "q" ex_world).2).2)).
Proof.
  apply (get_bar_data_frame ∅ ex_rows 2 "nope" (Some "x") (Some "y") "2D"
           (get_data ∅ ex_rows "q" ex_world).2). lia.
Defined.

Lemma bar_output_empty feature s e bin :
  bar_output ∅ feature s e bin = Raise (KeyError "timestamp").
Proof.
  unfold bar_output, filtered_of. simpl truthy_dict.
  rewrite bool_decide_eq_true_2 by done. simpl negb. rewrite andb_false_r. simpl.
  unfold count_by, getitem. by rewrite lookup_empty.
Qed.

(** X15. When the module-level bar dataset is the empty dict, it is never
    taken as cached: every request fails with [KeyError] on [timestamp],
    without parsing the dates, and takes one refresh per frame, one with a
    recognised bin size and two otherwise. *)
Theorem empty_source_reloaded_every_time (test_data : dataset) (depth : nat)
    (feature : string) (s e : option string) (bin : string) (w : world) :
  reachable test_data ∅ w →
  (2 ≤ depth)%nat →
  get_bar_data test_data ∅ depth feature s e bin w
  = (Raise (KeyError "timestamp"), (get_bar_data test_data ∅ depth feature s e bin w).2)
  ∧ refreshes (get_bar_data test_data ∅ depth feature s e bin w).2
    = (refreshes w + if bucket_key bin is Some _ then 1 else 2)%nat.
Proof.
  intros Hr Hd.
  assert (Hmiss : ∀ w, cache_inv ∅ (self w) →
            fresh w (bar_last_load_time (self w)) && truthy_dict (bar_data (self w))
            = false).
  { intros w0 [->| ->]; simpl; [apply andb_false_r|].
    rewrite bool_decide_eq_true_2 by done. apply andb_false_r. }
  assert (Hone : ∀ d bin k w, cache_inv ∅ (self w) → bucket_key bin = Some k →
            refreshes (get_bar_data test_data ∅ (S d) feature s e bin w).2
            = S (refreshes w)).
  { intros d bin' k w0 Hinv Hk.
    destruct (get_bar_data_world test_data ∅ d feature s e bin' w0)
      as [->|(w1 & _ & Hn & _)]; [|congruence].
    destruct (bar_snapshot_miss test_data ∅ w0 (Hmiss w0 Hinv)) as (l & k' & -> & _).
    done. }
  pose proof (reachable_cache_inv _ _ _ Hr) as Hinv.
  split.
  - rewrite (surjective_pairing (get_bar_data test_data ∅ depth feature s e bin w)) at 1.
    f_equal. rewrite get_bar_data_output; [|done|by left]. apply bar_output_empty.
  - destruct (bucket_key bin) as [k|] eqn:Hk.
    + destruct depth as [|d]; [lia|]. rewrite (Hone d bin k w Hinv Hk). lia.
    + destruct depth as [|[|d]]; [lia|lia|].
      rewrite get_bar_data_unfold.
      destruct (bar_snapshot_miss test_data ∅ w (Hmiss w Hinv)) as (l & k' & Hs & _).
      rewrite Hs, bar_filtered_run, Hk. cbn [self bar_data truthy_dict].
      rewrite bool_decide_eq_true_2 by done. cbn [negb]. rewrite !andb_false_r.
      rewrite (Hone d "1D" day_key); [simpl; lia|by right|done].
Qed.

Lemma empty_source_reloaded_every_time_witness :
  fst (get_bar_data ∅ ∅ 2 "status" (Some "not-a-date") (Some "2024-01-01") "1H" ex_world)
  = Raise (KeyError "timestamp").
Proof.
  rewrite (proj1 (empty_source_reloaded_every_time ∅ 2 "status" (Some "not-a-date")
                    (Some "2024-01-01") "1H" ex_world (reach_init ∅ ∅ _ _ _ _)
                    (le_n 2))).
  reflexivity.
Defined.

(** X16. [clear_cache] puts a reachable handler back in the state
    [__init__] creates and keeps the refresh counter; the next [get_data]
    takes exactly one refresh and the next [get_bar_data] at least one,
    whatever the clock says; [get_cache_status] then reports both slots not
    valid, without load time or age, and reads no clock. *)
Theorem clear_cache_resets (test_data bar_test_data : dataset) (query feature : string)
    (s e : option string) (bin : string) (depth : nat) (w : world) :
  reachable test_data bar_test_data w →
  self (clear_cache w).2 = __init__
  ∧ refreshes (clear_cache w).2 = refreshes w
  ∧ refreshes (get_data test_data bar_test_data query (clear_cache w).2).2
    = S (refreshes w)
  ∧ (refreshes w
     < refreshes (get_bar_data test_data bar_test_data (S depth) feature s e bin
                    (clear_cache w).2).2)%nat
  ∧ get_cache_status (clear_cache w).2
    = (Ok (mk_cache_status (mk_slot_status false None None)
             (mk_slot_status false None None) (Qmake 600 60)),
       (clear_cache w).2).
Proof.
  intros Hr. destruct (reachable_slots _ _ _ Hr) as (_ & _ & Hd).
  assert (Hself : self (clear_cache w).2 = __init__).
  { unfold clear_cache. unfold_m. simpl. by rewrite Hd. }
  split_and!; [done|done| | |].
  3: { unfold get_cache_status, slot_report, clear_cache. unfold_m. simpl.
       by rewrite Hd. }
  - destruct (get_data_miss test_data bar_test_data query (clear_cache w).2)
      as (l & k & -> & _); [by rewrite Hself|done].
  - assert (Hm : fresh (clear_cache w).2 (bar_last_load_time (self (clear_cache w).2))
                 && truthy_dict (bar_data (self (clear_cache w).2)) = false)
      by (by rewrite Hself).
    destruct (bar_snapshot_miss test_data bar_test_data _ Hm) as (l & k & Hs & _).
    destruct (get_bar_data_world test_data bar_test_data depth feature s e bin
                (clear_cache w).2) as [->|(w1 & Hw1 & _ & ->)].
    + rewrite Hs. simpl. lia.
    + destruct (get_bar_data_frames test_data bar_test_data depth feature s e "1D" w1)
        as (_ & _ & _ & Hle & _).
      rewrite Hs in Hw1. simpl in Hw1. subst w1. simpl in Hle. lia.
Qed.

Lemma clear_cache_resets_witness :
  self (clear_cache (get_data ∅ ex_rows "q" ex_world).2).2 = __init__.
Proof.
  apply (clear_cache_resets ∅ ex_rows "q" "status" None None "1D" 0
           (get_data ∅ ex_rows "q" ex_world).2).
  apply reach_get_data, reach_init.
Defined.

(** X17. The result of [get_bar_data], value or exception, is the same in
    all the worlds a handler can reach: it depends on the request and on the
    module-level dataset, not on the state of the cache, the clock or the
    calls made before. *)
Theorem caching_is_transparent (test_data bar_test_data : dataset) (depth depth' : nat)
    (feature : string) (s e : option string) (bin : string) (w w' : world) :
  reachable test_data bar_test_data w →
  reachable test_data bar_test_data w' →
  (2 ≤ depth)%nat → (2 ≤ depth')%nat →
  fst (get_bar_data test_data bar_test_data depth feature s e bin w)
  = fst (get_bar_data test_data bar_test_data depth' feature s e bin w').
Proof.
  intros Hw Hw' Hd Hd'.
  pose proof (reachable_cache_inv _ _ _ Hw) as Hi.
  pose proof (reachable_cache_inv _ _ _ Hw') as Hi'.
  rewrite (get_bar_data_output test_data bar_test_data depth feature s e bin w Hi)
    by (by left).
  by rewrite (get_bar_data_output test_data bar_test_data depth' feature s e bin w' Hi')
    by (by left).
Qed.

Lemma caching_is_transparent_witness :
  fst (get_bar_data ∅ ex_rows 2 "status" None None "1W" ex_world)
  = fst (get_bar_data ∅ ex_rows 3 "status" None None "1W"
           (get_bar_data ∅ ex_rows 2 "user" None None "1H" ex_world).2).
Proof.
  apply (caching_is_transparent ∅ ex_rows 2 3 "status" None None "1W" ex_world
           (get_bar_data ∅ ex_rows 2 "user" None None "1H" ex_world).2);
    [apply reach_init|apply reach_get_bar_data, reach_init|lia|lia].
Defined.

(** ** The features on offer *)

Lemma ex_keys_ok : keys_of ex_rows ex_keys.
Proof.
  split.
  - unfold ex_keys.
    repeat (apply NoDup_cons; split;
            [intros Hin; repeat (apply elem_of_cons in Hin as [Hin|Hin]; [done|]);
             by apply elem_of_nil in Hin|]).
    apply NoDup_nil_2.
  - intros k. unfold ex_rows, ex_keys. split.
    + intros Hk. repeat (apply elem_of_cons in Hk as [->|Hk]; [by eexists|]).
      by apply elem_of_nil in Hk.
    + intros [col Hk].
      destruct (decide (k = "timestamp")) as [->|H1]; [by left|].
      destruct (decide (k = "status")) as [->|H2]; [by right; left|].
      destruct (decide (k = "user")) as [->|H3]; [by do 2 right; left|].
      by rewrite !lookup_insert_ne, lookup_empty in Hk.
Qed.

Lemma count_by_sum bin key_of (fd : dataset) feature rows col :
  bucket_key bin = Some key_of →
  fd !! "timestamp" = Some rows →
  fd !! feature = Some col →
  length col = length rows →
  forallb is_timestamp rows = true →
  ∃ res, count_by key_of fd feature = Ok res ∧ sum_counts res = Z.of_nat (length rows).
Proof.
  intros Hb Hrows Hcol Hlen Hts.
  destruct (count_by_run _ _ _ _ _ _ Hb Hrows Hcol Hlen Hts) as (keys & Hk & Hrun).
  eexists. split; [exact Hrun|].
  rewrite sum_counts_emit_all, total_all_bump_all. simpl.
  rewrite length_zip. apply Forall2_length in Hk. lia.
Qed.

(** X18. [get_available_features] returns the keys of the module-level bar
    dataset other than [timestamp], each once and in the order of the dict;
    when [timestamp] is a key the list is one shorter than the list of
    keys. *)
Theorem available_features_are_the_other_columns (bar_test_data : dataset)
    (bar_test_keys : list string) :
  keys_of bar_test_data bar_test_keys →
  (∀ f, f ∈ get_available_features bar_test_keys
        ↔ is_Some (bar_test_data !! f) ∧ f ≠ "timestamp")
  ∧ NoDup (get_available_features bar_test_keys)
  ∧ get_available_features bar_test_keys `sublist_of` bar_test_keys
  ∧ (is_Some (bar_test_data !! "timestamp") →
     S (length (get_available_features bar_test_keys)) = length bar_test_keys).
Proof.
  intros [Hnd Hk]. unfold get_available_features. split_and!.
  - intros f. rewrite list_elem_of_filter, Hk. tauto.
  - by apply NoDup_filter.
  - apply sublist_filter.
  - intros Hts%Hk. clear Hk. induction bar_test_keys as [|k keys IH]; [by apply elem_of_nil in Hts|].
    apply NoDup_cons in Hnd as [Hnotin Hnd].
    destruct (decide (k = "timestamp")) as [->|Hne].
    + rewrite filter_cons_False by (by intros ?). simpl. f_equal.
      clear -Hnotin. induction keys as [|k keys IH]; [done|].
      apply not_elem_of_cons in Hnotin as [Hne Hnotin].
      rewrite filter_cons_True by done. simpl. f_equal. by apply IH.
    + rewrite filter_cons_True by done. simpl. f_equal. apply IH; [done|].
      apply elem_of_cons in Hts as [?|?]; [congruence|done].
Qed.

Lemma available_features_are_the_other_columns_witness :
  NoDup (get_available_features ex_keys).
Proof.
  apply (available_features_are_the_other_columns ex_rows ex_keys ex_keys_ok).
Defined.

Lemma forallb_is_timestamp ts :
  forallb valid_datetime ts = true → forallb is_timestamp (VDatetime <$> ts) = true.
Proof.
  induction ts as [|t ts IH]; [done|]. simpl. intros [-> H]%andb_prop. by apply IH.
Qed.

Lemma forallb_filter_valid (P : datetime → Prop) `{∀ t, Decision (P t)} ts :
  forallb valid_datetime ts = true → forallb valid_datetime (filter P ts) = true.
Proof.
  induction ts as [|t ts IH]; [done|]. simpl. intros [Ht Hts]%andb_prop.
  destruct (decide (P t)).
  - rewrite filter_cons_True by done. simpl. rewrite Ht. by apply IH.
  - rewrite filter_cons_False by done. by apply IH.
Qed.

Lemma select_length {A} keep ts (col : list A) :
  (length ts ≤ length col)%nat →
  length (select keep ts col) = length (filter (λ t, keep t = true) ts).
Proof.
  intros Hlen. unfold select. rewrite length_fmap.
  rewrite <- (zip_filter_fst keep ts col Hlen). by rewrite length_fmap.
Qed.

(** X19. On a module-level dataset whose columns have the same length and
    whose timestamps are datetimes, a request for a feature that
    [get_available_features] offers succeeds for every bin size and every
    date window that parses, and the counts it returns add up to the number
    of rows the window retains. *)
Theorem offered_feature_is_served (test_data bar_test_data : dataset)
    (bar_test_keys : list string) (depth : nat) (feature : string)
    (s e : option string) (bin : string) (w : world) (ts retained : list datetime) :
  reachable test_data bar_test_data w →
  (2 ≤ depth)%nat →
  keys_of bar_test_data bar_test_keys →
  feature ∈ get_available_features bar_test_keys →
  row_aligned bar_test_data →
  bar_test_data !! "timestamp" = Some (VDatetime <$> ts) →
  forallb valid_datetime ts = true →
  retained_rows s e ts = Ok retained →
  ∃ res, fst (get_bar_data test_data bar_test_data depth feature s e bin w) = Ok res
    ∧ sum_counts res = Z.of_nat (length retained).
Proof.
  intros Hinv%reachable_cache_inv Hd [_ Hkeys] Hf [n Hal] Hts Hvalid Hret.
  unfold get_available_features in Hf. apply list_elem_of_filter in Hf as [Hne Hf].
  apply Hkeys in Hf as [col Hcol].
  assert (Hlen : length col = length ts).
  { rewrite (Hal _ _ Hcol). rewrite <- (Hal _ _ Hts). by rewrite length_fmap. }
  assert (Hk : ∃ bin', bucket_key bin' = Some (default day_key (bucket_key bin))).
  { destruct (bucket_key bin) eqn:Hb; [by exists bin|by exists "1D"]. }
  destruct Hk as [bin' Hk].
  rewrite get_bar_data_output by (done || by left).
  unfold bar_output, filtered_of, retained_rows in *.
  rewrite (truthy_dict_lookup _ _ _ Hts), andb_true_r.
  destruct (truthy_str s && truthy_str e).
  - destruct (fromisoformat (default "" s)) as [sd|] eqn:Hs; [|done].
    destruct (fromisoformat (default "" e)) as [ed|] eqn:He; [|done].
    simpl in Hret. injection Hret as <-.
    rewrite (range_filter_run bar_test_data bar_test_data feature _ _ sd ed ts Hs He Hts).
    cbv zeta. set (keep := window_keep sd (replace_hms ed 23 59 59)).
    rewrite (pick_kept bar_test_data feature col keep ts 0 Hcol) by (simpl; lia).
    rewrite drop_0. simpl.
    destruct (count_by_sum bin' _
                (<[feature := select keep ts col]>
                   (<["timestamp" := VDatetime <$> filter (λ t, keep t = true) ts]>
                      bar_test_data))
                feature (VDatetime <$> filter (λ t, keep t = true) ts)
                (select keep ts col) Hk) as (res & Hrun & Hsum).
    + rewrite lookup_insert_ne by done. by rewrite lookup_insert_eq.
    + by rewrite lookup_insert_eq.
    + rewrite length_fmap. apply select_length. lia.
    + by apply forallb_is_timestamp, forallb_filter_valid.
    + exists res. split; [done|]. by rewrite Hsum, length_fmap.
  - simpl in *. injection Hret as <-.
    destruct (count_by_sum bin' _ bar_test_data feature (VDatetime <$> ts) col Hk Hts Hcol)
      as (res & Hrun & Hsum).
    + by rewrite length_fmap.
    + by apply forallb_is_timestamp.
    + exists res. split; [done|]. by rewrite Hsum, length_fmap.
Qed.

Lemma ex_rows_aligned : row_aligned ex_rows.
Proof.
  exists 2%nat. unfold ex_rows. intros k col Hk.
  destruct (decide (k = "timestamp")) as [->|H1];
    [rewrite lookup_insert_eq in Hk; by injection Hk as <-|].
  rewrite lookup_insert_ne in Hk by done.
  destruct (decide (k = "status")) as [->|H2];
    [rewrite lookup_insert_eq in Hk; by injection Hk as <-|].
  rewrite lookup_insert_ne in Hk by done.
  destruct (decide (k = "user")) as [->|H3];
    [rewrite lookup_insert_eq in Hk; by injection Hk as <-|].
  by rewrite lookup_insert_ne, lookup_empty in Hk.
Qed.

Lemma offered_feature_is_served_witness :
  ∃ res, fst (get_bar_data ∅ ex_rows 2 "user" (Some "2024-01-01") (Some "2024-01-02")
                "3M" ex_world) = Ok res
    ∧ sum_counts res = 1.
Proof.
  apply (offered_feature_is_served ∅ ex_rows ex_keys 2 "user" (Some "2024-01-01")
           (Some "2024-01-02") "3M" ex_world [ex_t1; ex_t2] [ex_t1]
           (reach_init ∅ ex_rows _ _ _ _) (le_n 2) ex_keys_ok);
    [|exact ex_rows_aligned|reflexivity|reflexivity|reflexivity].
  unfold get_available_features, ex_keys.
  apply list_elem_of_filter. split; [done|]. by do 2 right; left.
Defined.

(** ** The analytics endpoints *)




(** X21. The endpoints for the features, for clearing the cache and for the
    cache status always answer with a response, never with an
    [HTTPException]: the features endpoint changes nothing, the other two
    change the world as the handler method does. *)
Theorem cache_endpoints_never_fail (bar_test_keys : list string)
    (str : exception → string) (w : world) :
  fst (events.get_bar_features bar_test_keys str w)
  = Ok (events.Response (get_available_features bar_test_keys))
  ∧ snd (events.get_bar_features bar_test_keys str w) = w
  ∧ fst (events.clear_cache str w) = Ok (events.Response "Cache cleared successfully")
  ∧ snd (events.clear_cache str w) = snd (clear_cache w)
  ∧ (∃ status, fst (events.get_cache_status str w) = Ok (events.Response status)
       ∧ fst (get_cache_status w) = Ok status)
  ∧ snd (events.get_cache_status str w) = snd (get_cache_status w).
Proof.
  split_and!; try reflexivity.
  - destruct (get_cache_status_frame w) as (st & w1 & Hrun & _).
    exists st. unfold events.get_cache_status, events.try_except.
    rewrite bind_run, Hrun. done.
  - destruct (get_cache_status_frame w) as (st & w1 & Hrun & _).
    unfold events.get_cache_status, events.try_except.
    rewrite bind_run, Hrun. done.
Qed.
